(** * The GCP IAM ServiceAccount controller (pkg/controller/iam/managed.go)

    A shallow embedding of the external-resource lifecycle of the
    ServiceAccount managed resource: the connecter, the four operations of
    the external client, the drift detector, the two state projections and
    the relative resource namer.

    Go packages are rendered as modules.  Pointers that may be nil are
    [option]s, Go's [(value, error)] results are pairs whose second
    component is an [option errors.error], calls on collaborators (the
    Kubernetes client, the client constructor, the IAM service) are recorded
    in a log, and a nil dereference is an explicit [Panicked] outcome. *)

From Stdlib Require Import String Ascii List ZArith Lia.
From stdpp Require Import base gmap strings.

Import ListNotations.
Local Open Scope string_scope.
Local Open Scope list_scope.

(** ** github.com/pkg/errors and the error values of the collaborators *)

Module errors.

(** An [error] interface value that is not nil.  [ApiError] is a
    [*googleapi.Error] carrying the HTTP status code, [Foreign] any other
    error produced outside this package (Kubernetes client, transport),
    [Fundamental] the result of [errors.New] and [WithStack] the result of
    [errors.Wrap] on a non-nil cause. *)
Inductive error : Type :=
| ApiError (code : Z) (message : string)
| Foreign (message : string)
| Fundamental (msg : string)
| WithStack (cause : error) (msg : string).

Definition New (message : string) : error := Fundamental message.

(** [errors.Wrap] returns nil when the error it is given is nil. *)
Definition Wrap (err : option error) (message : string) : option error :=
  match err with
  | None => None
  | Some e => Some (WithStack e message)
  end.

Fixpoint Error (e : error) : string :=
  match e with
  | ApiError _ m => m
  | Foreign m => m
  | Fundamental m => m
  | WithStack c m => m +:+ ": " +:+ Error c
  end.

Fixpoint Cause (e : error) : error :=
  match e with
  | WithStack c _ => Cause c
  | _ => e
  end.

End errors.

Abbreviation error := errors.error.

(** ** fmt.Sprintf, restricted to the [%s] verb the package uses *)

Module fmt.

Fixpoint extraArgs (a : list string) : string :=
  match a with
  | [] => ""
  | [x] => "string=" +:+ x
  | x :: a' => "string=" +:+ x +:+ ", " +:+ extraArgs a'
  end.

(** Arguments are consumed left to right, one per [%s]; an argument is
    copied as it is and never scanned for verbs again.  A verb without an
    argument prints [%!s(MISSING)], arguments left over are reported after
    the text. *)
Fixpoint Sprintf (format : string) (a : list string) : string :=
  match format with
  | EmptyString =>
      match a with
      | [] => ""
      | _ :: _ => "%!(EXTRA " +:+ extraArgs a +:+ ")"
      end
  | String "%"%char (String "s"%char rest) =>
      match a with
      | x :: a' => x +:+ Sprintf rest a'
      | [] => "%!s(MISSING)" +:+ Sprintf rest []
      end
  | String c rest => String c (Sprintf rest a)
  end.

End fmt.

(** ** Kubernetes and crossplane-runtime types the controller touches *)

Module corev1.

Record ObjectReference : Type :=
  { Namespace : string; Name : string }.

(** A Secret; [Data] maps a key to its bytes. *)
Record Secret : Type :=
  { Data : gmap string (list Byte.byte) }.

End corev1.

Module types.

Record NamespacedName : Type :=
  { Namespace : string; Name : string }.

End types.

Module runtimev1alpha1.

Record SecretReference : Type :=
  { srNamespace : string; srName : string }.

Record SecretKeySelector : Type :=
  { Namespace : string; Name : string; Key : string }.

End runtimev1alpha1.

Module metav1.

Record ObjectMeta : Type :=
  { Name : string; Annotations : gmap string string }.

End metav1.

(** ** google.golang.org/api/iam/v1 *)

Module iamv1.

Record ServiceAccount : Type :=
  { Description : string;
    Disabled : bool;
    DisplayName : string;
    Email : string;
    Name : string;
    Oauth2ClientId : string;
    UniqueId : string }.

(** The zero value [&iamv1.ServiceAccount{}]. *)
Definition zero : ServiceAccount :=
  {| Description := ""; Disabled := false; DisplayName := ""; Email := "";
     Name := ""; Oauth2ClientId := ""; UniqueId := "" |}.

Record CreateServiceAccountRequest : Type :=
  { AccountId : string; csarServiceAccount : ServiceAccount }.

Record PatchServiceAccountRequest : Type :=
  { psarServiceAccount : ServiceAccount; UpdateMask : string }.

(** The service handle: what the provider answers to each request once
    [Do] is called on it. *)
Record ProjectsServiceAccountsService : Type :=
  { doGet : string -> ServiceAccount + error;
    doCreate : string -> CreateServiceAccountRequest -> ServiceAccount + error;
    doPatch : string -> PatchServiceAccountRequest -> ServiceAccount + error;
    doDelete : string -> unit + error }.

End iamv1.

(** ** apis/iam/v1alpha1: the ServiceAccount managed resource *)

Module v1alpha1.

Record ServiceAccountParameters : Type :=
  { DisplayName : option string; Description : option string }.

Record ServiceAccountObservation : Type :=
  { Name : string;
    Email : string;
    UniqueID : string;
    Oauth2ClientID : string;
    Disabled : bool }.

Record ServiceAccountSpec : Type :=
  { ProviderReference : option corev1.ObjectReference;
    ForProvider : ServiceAccountParameters }.

Record ServiceAccountStatus : Type :=
  { AtProvider : ServiceAccountObservation }.

Record ServiceAccount : Type :=
  { ObjectMeta : metav1.ObjectMeta;
    Spec : ServiceAccountSpec;
    Status : ServiceAccountStatus }.

End v1alpha1.

(** ** apis/v1alpha3: the Provider and the Bucket managed resource *)

Module gcpv1alpha3.

Record ProviderSpec : Type :=
  { CredentialsSecretRef : option runtimev1alpha1.SecretKeySelector;
    ProjectID : string }.

Record Provider : Type :=
  { Spec : ProviderSpec }.

(** The generated accessor of the Provider: the field itself. *)
Definition GetCredentialsSecretReference (p : Provider)
  : option runtimev1alpha1.SecretKeySelector :=
  CredentialsSecretRef (Spec p).

Record BucketSpec : Type :=
  { ClaimReference : option corev1.ObjectReference;
    ClassReference : option corev1.ObjectReference;
    ProviderReference : option corev1.ObjectReference;
    ReclaimPolicy : string;
    WriteConnectionSecretToReference : option runtimev1alpha1.SecretReference }.

Record Bucket : Type :=
  { bucketSpec : BucketSpec }.

Definition GetProviderReference (mg : Bucket) : option corev1.ObjectReference :=
  ProviderReference (bucketSpec mg).

Definition SetProviderReference (mg : Bucket) (r : option corev1.ObjectReference)
  : Bucket :=
  let s := bucketSpec mg in
  {| bucketSpec :=
      {| ClaimReference := ClaimReference s;
         ClassReference := ClassReference s;
         ProviderReference := r;
         ReclaimPolicy := ReclaimPolicy s;
         WriteConnectionSecretToReference := WriteConnectionSecretToReference s |} |}.

Definition GetReclaimPolicy (mg : Bucket) : string :=
  ReclaimPolicy (bucketSpec mg).

End gcpv1alpha3.

(** ** resource.Managed: the dynamic type behind the interface value *)

Module resource.

Inductive Managed : Type :=
| OfServiceAccount (cr : v1alpha1.ServiceAccount)
| OfBucket (b : gcpv1alpha3.Bucket).

End resource.

(** ** crossplane-runtime/pkg/meta *)

Module meta.

Definition AnnotationKeyExternalName : string := "crossplane.io/external-name".

(** Reading an absent key of a Go map yields the empty string. *)
Definition GetExternalName (cr : v1alpha1.ServiceAccount) : string :=
  default "" (metav1.Annotations (v1alpha1.ObjectMeta cr) !! AnnotationKeyExternalName).

Definition NamespacedNameOf (r : corev1.ObjectReference) : types.NamespacedName :=
  {| types.Namespace := corev1.Namespace r; types.Name := corev1.Name r |}.

End meta.

(** ** crossplane-runtime/pkg/reconciler/managed: result structs *)

Module managed.

Definition ConnectionDetails : Type := gmap string (list Byte.byte).

Record ExternalObservation : Type :=
  { ResourceExists : bool;
    ResourceUpToDate : bool;
    eoConnectionDetails : option ConnectionDetails }.

Record ExternalCreation : Type :=
  { ecConnectionDetails : option ConnectionDetails }.

Record ExternalUpdate : Type :=
  { euConnectionDetails : option ConnectionDetails }.

Definition noObservation : ExternalObservation :=
  {| ResourceExists := false; ResourceUpToDate := false; eoConnectionDetails := None |}.

Definition noCreation : ExternalCreation := {| ecConnectionDetails := None |}.

Definition noUpdate : ExternalUpdate := {| euConnectionDetails := None |}.

End managed.

(** ** pkg/clients *)

Module gcp.

(** Modelled from the spec: [gcp.StringValue] of pkg/clients, whose source
    is not at hand.  The spec's State Projector performs "no defaulting
    beyond absent optional -> empty string on the outbound direction", and
    a set field is projected as its value. *)
Definition StringValue (v : option string) : string :=
  match v with
  | None => ""
  | Some s => s
  end.

End gcp.

(** ** The controller: pkg/controller/iam/managed.go *)

(** Error strings. *)
Definition errGetProvider : string := "cannot get Provider".
Definition errProviderSecretRef : string := "cannot find Secret reference on Provider".
Definition errGetProviderSecret : string := "cannot get Provider Secret".
Definition errNewClient : string := "cannot create new GCP IAM API client".
Definition errNotServiceAccount : string := "managed resource is not a GCP ServiceAccount".
Definition errGet : string := "cannot get GCP ServiceAccount object via IAM API".
Definition errCreate : string := "cannot create GCP ServiceAccount object via IAM API".
Definition errUpdate : string := "cannot update GCP ServiceAccount object via IAM API".
Definition errDelete : string := "cannot delete GCP ServiceAccount object via IAM API".

(** *** Effects: the reconciled object, the calls issued, panics *)

(** Every request that leaves the controller. *)
Inductive Call : Type :=
| KubeGetProvider (key : types.NamespacedName)
| KubeGetSecret (key : types.NamespacedName)
| NewSAS (creds : option (list Byte.byte))
| IamGet (name : string)
| IamCreate (parent : string) (csar : iamv1.CreateServiceAccountRequest)
| IamPatch (name : string) (psar : iamv1.PatchServiceAccountRequest)
| IamDelete (name : string).

(** [mg] is a pointer: the object it points to lives in the store and is
    mutated in place; [calls] is the log of requests, oldest first. *)
Record Store : Type :=
  { object : resource.Managed; calls : list Call }.

Inductive Outcome (A : Type) : Type :=
| Returned (a : A)
| Panicked (reason : string).

Arguments Returned {A} a.
Arguments Panicked {A} reason.

Definition Go (A : Type) : Type := Store -> Outcome A * Store.

Definition ret {A : Type} (a : A) : Go A := fun s => (Returned a, s).

Definition bind {A B : Type} (m : Go A) (k : A -> Go B) : Go B :=
  fun s =>
    match m s with
    | (Returned a, s') => k a s'
    | (Panicked r, s') => (Panicked r, s')
    end.

Declare Scope go_scope.
Delimit Scope go_scope with go.
Notation "x <- m ;; k" := (bind m (fun x => k))
  (at level 100, m at next level, k at level 200) : go_scope.
Notation "m ;; k" := (bind m (fun _ => k))
  (at level 100, k at level 200) : go_scope.
Local Open Scope go_scope.

Definition panic {A : Type} (reason : string) : Go A := fun s => (Panicked reason, s).

Definition load : Go resource.Managed := fun s => (Returned (object s), s).

Definition store (mg : resource.Managed) : Go unit :=
  fun s => (Returned tt, {| object := mg; calls := calls s |}).

Definition issue (c : Call) : Go unit :=
  fun s => (Returned tt, {| object := object s; calls := calls s ++ [c] |}).

(** Dereferencing a pointer: nil panics. *)
Definition deref {A : Type} (p : option A) : Go A :=
  match p with
  | Some a => ret a
  | None => panic "invalid memory address or nil pointer dereference"
  end.

(** The error half of a [(value, error)] result. *)
Definition errOf {A : Type} (r : A + error) : option error :=
  match r with
  | inl _ => None
  | inr err => Some err
  end.

(** *** RelativeResourceNamer *)

Record RelativeResourceNamer : Type :=
  { projectName : string }.

Definition NewRelativeResourceNamer (projectName : string) : RelativeResourceNamer :=
  {| projectName := projectName |}.

(** ProjectName yields the relative resource name for a GCP project. *)
Definition ProjectName (rrn : RelativeResourceNamer) : string :=
  fmt.Sprintf "projects/%s" [projectName rrn].

(** ResourceName yields the relative resource name for the Service Account
    resource. *)
Definition ResourceName (rrn : RelativeResourceNamer) (sa : v1alpha1.ServiceAccount)
  : string :=
  fmt.Sprintf "projects/%s/serviceAccounts/%s@%s.iam.gserviceaccount.com"
    [projectName rrn; meta.GetExternalName sa; projectName rrn].

(** *** Drift detection and the two projections *)

Definition strNeq (a b : string) : bool := negb (String.eqb a b).

Definition isUpToDate (i : v1alpha1.ServiceAccountParameters)
    (observed : iamv1.ServiceAccount) : bool :=
  if match v1alpha1.DisplayName i with
     | Some d => strNeq d (iamv1.DisplayName observed)
     | None => false
     end
  then false
  else if match v1alpha1.Description i with
          | Some d => strNeq d (iamv1.Description observed)
          | None => false
          end
  then false
  else true.

Definition populateCRFromProvider (cr : v1alpha1.ServiceAccount)
    (fromProvider : iamv1.ServiceAccount) : v1alpha1.ServiceAccount :=
  {| v1alpha1.ObjectMeta := v1alpha1.ObjectMeta cr;
     v1alpha1.Spec := v1alpha1.Spec cr;
     v1alpha1.Status :=
       {| v1alpha1.AtProvider :=
           {| v1alpha1.UniqueID := iamv1.UniqueId fromProvider;
              v1alpha1.Email := iamv1.Email fromProvider;
              v1alpha1.Oauth2ClientID := iamv1.Oauth2ClientId fromProvider;
              v1alpha1.Disabled := iamv1.Disabled fromProvider;
              v1alpha1.Name := iamv1.Name fromProvider |} |} |}.

Definition populateProviderFromCR (forProvider : iamv1.ServiceAccount)
    (cr : v1alpha1.ServiceAccount) : iamv1.ServiceAccount :=
  {| iamv1.DisplayName :=
       gcp.StringValue (v1alpha1.DisplayName (v1alpha1.ForProvider (v1alpha1.Spec cr)));
     iamv1.Description :=
       gcp.StringValue (v1alpha1.Description (v1alpha1.ForProvider (v1alpha1.Spec cr)));
     iamv1.Disabled := iamv1.Disabled forProvider;
     iamv1.Email := iamv1.Email forProvider;
     iamv1.Name := iamv1.Name forProvider;
     iamv1.Oauth2ClientId := iamv1.Oauth2ClientId forProvider;
     iamv1.UniqueId := iamv1.UniqueId forProvider |}.

(** *** The connecter *)

(** newServiceAccountsAPI returns a new IAM Admin Client (responsible for
    Service Account management).  [NewService] stands for
    [iamv1.NewService] applied to the JSON credentials. *)
Definition newServiceAccountsAPI
    (NewService : option (list Byte.byte)
                  -> iamv1.ProjectsServiceAccountsService + error)
    (credentials : option (list Byte.byte))
  : option iamv1.ProjectsServiceAccountsService * option error :=
  match NewService credentials with
  | inr err => (None, Some err)
  | inl service => (Some service, None)
  end.

(** The controller-runtime client, as far as [Connect] uses it: [Get] of a
    Provider and [Get] of a Secret, each answering the object or an error. *)
Record Client : Type :=
  { GetProvider : types.NamespacedName -> gcpv1alpha3.Provider + error;
    GetSecret : types.NamespacedName -> corev1.Secret + error }.

(** [newSAS] is any Go function: it may return a nil or a non-nil service
    together with a nil or a non-nil error. *)
Record connecter : Type :=
  { client : Client;
    newSAS : option (list Byte.byte)
             -> option iamv1.ProjectsServiceAccountsService * option error }.

Record external : Type :=
  { serviceAccounts : option iamv1.ProjectsServiceAccountsService;
    rrn : RelativeResourceNamer }.

(** Connect sets up iam client using credentials from the provider. *)
Definition Connect (c : connecter) : Go (option external * option error) :=
  mg <- load ;;
  match mg with
  | resource.OfServiceAccount cr =>
      ref <- deref (v1alpha1.ProviderReference (v1alpha1.Spec cr)) ;;
      issue (KubeGetProvider (meta.NamespacedNameOf ref)) ;;
      match GetProvider (client c) (meta.NamespacedNameOf ref) with
      | inr err => ret (None, errors.Wrap (Some err) errGetProvider)
      | inl p =>
          match gcpv1alpha3.GetCredentialsSecretReference p with
          | None => ret (None, Some (errors.New errProviderSecretRef))
          | Some sel =>
              let n := {| types.Namespace := runtimev1alpha1.Namespace sel;
                          types.Name := runtimev1alpha1.Name sel |} in
              issue (KubeGetSecret n) ;;
              match GetSecret (client c) n with
              | inr err => ret (None, errors.Wrap (Some err) errGetProviderSecret)
              | inl s =>
                  let creds := corev1.Data s !! runtimev1alpha1.Key sel in
                  issue (NewSAS creds) ;;
                  let '(saAPI, err) := newSAS c creds in
                  let rrn := NewRelativeResourceNamer
                               (gcpv1alpha3.ProjectID (gcpv1alpha3.Spec p)) in
                  ret (Some {| serviceAccounts := saAPI; rrn := rrn |},
                       errors.Wrap err errNewClient)
              end
          end
      end
  | _ => ret (None, Some (errors.New errNotServiceAccount))
  end.

(** *** The external client *)

Section External.

(** [gcp.IsErrorNotFound] of pkg/clients decides whether an error (nil
    included) is the provider's not-found answer; its source is not at
    hand, so the operations take it as a parameter. *)
Variable IsErrorNotFound : option error -> bool.

Definition Observe (e : external)
  : Go (managed.ExternalObservation * option error) :=
  mg <- load ;;
  match mg with
  | resource.OfServiceAccount cr =>
      let name := ResourceName (rrn e) cr in
      svc <- deref (serviceAccounts e) ;;
      issue (IamGet name) ;;
      let r := iamv1.doGet svc name in
      if IsErrorNotFound (errOf r)
      then ret ({| managed.ResourceExists := false;
                   managed.ResourceUpToDate := false;
                   managed.eoConnectionDetails := None |}, None)
      else
        match r with
        | inr err => ret (managed.noObservation, errors.Wrap (Some err) errGet)
        | inl fromProvider =>
            let cr' := populateCRFromProvider cr fromProvider in
            store (resource.OfServiceAccount cr') ;;
            ret ({| managed.ResourceExists := true;
                    managed.ResourceUpToDate :=
                      isUpToDate (v1alpha1.ForProvider (v1alpha1.Spec cr')) fromProvider;
                    managed.eoConnectionDetails := Some ∅ |}, None)
        end
  | _ => ret (managed.noObservation, Some (errors.New errNotServiceAccount))
  end.

Definition Create (e : external)
  : Go (managed.ExternalCreation * option error) :=
  mg <- load ;;
  match mg with
  | resource.OfServiceAccount cr =>
      let csar :=
        {| iamv1.AccountId := meta.GetExternalName cr;
           iamv1.csarServiceAccount :=
             {| iamv1.DisplayName :=
                  gcp.StringValue
                    (v1alpha1.DisplayName (v1alpha1.ForProvider (v1alpha1.Spec cr)));
                iamv1.Description :=
                  gcp.StringValue
                    (v1alpha1.Description (v1alpha1.ForProvider (v1alpha1.Spec cr)));
                iamv1.Disabled := false;
                iamv1.Email := "";
                iamv1.Name := "";
                iamv1.Oauth2ClientId := "";
                iamv1.UniqueId := "" |} |} in
      let parent := ProjectName (rrn e) in
      svc <- deref (serviceAccounts e) ;;
      issue (IamCreate parent csar) ;;
      match iamv1.doCreate svc parent csar with
      | inr err => ret (managed.noCreation, errors.Wrap (Some err) errCreate)
      | inl fromProvider =>
          store (resource.OfServiceAccount (populateCRFromProvider cr fromProvider)) ;;
          ret (managed.noCreation, errors.Wrap None errCreate)
      end
  | _ => ret (managed.noCreation, Some (errors.New errNotServiceAccount))
  end.

Definition Update (e : external)
  : Go (managed.ExternalUpdate * option error) :=
  mg <- load ;;
  match mg with
  | resource.OfServiceAccount cr =>
      let sa := populateProviderFromCR iamv1.zero cr in
      let psar :=
        {| iamv1.psarServiceAccount := sa;
           iamv1.UpdateMask := "description,displayName" |} in
      let name := ResourceName (rrn e) cr in
      svc <- deref (serviceAccounts e) ;;
      issue (IamPatch name psar) ;;
      let err := errOf (iamv1.doPatch svc name psar) in
      ret (managed.noUpdate, errors.Wrap err errUpdate)
  | _ => ret (managed.noUpdate, Some (errors.New errNotServiceAccount))
  end.

Definition Delete (e : external) : Go (option error) :=
  mg <- load ;;
  match mg with
  | resource.OfServiceAccount cr =>
      let name := ResourceName (rrn e) cr in
      svc <- deref (serviceAccounts e) ;;
      issue (IamDelete name) ;;
      let err := errOf (iamv1.doDelete svc name) in
      if IsErrorNotFound err
      then ret None
      else ret (errors.Wrap err errDelete)
  | _ => ret (Some (errors.New errNotServiceAccount))
  end.

End External.

(** ** Auxiliary definitions for the statements *)

(** Strings as character lists. *)
Definition chars (s : string) : list ascii := list_ascii_of_string s.

(** Whether a scope contains the path separator. *)
Fixpoint hasSlash (s : string) : bool :=
  match s with
  | EmptyString => false
  | String c rest => if Ascii.eqb c "/" then true else hasSlash rest
  end.

(** *** Sample objects *)

Definition zeroObservation : v1alpha1.ServiceAccountObservation :=
  {| v1alpha1.Name := ""; v1alpha1.Email := ""; v1alpha1.UniqueID := "";
     v1alpha1.Oauth2ClientID := ""; v1alpha1.Disabled := false |}.

(** A ServiceAccount named [name] whose external-name annotation is
    [externalName], referring to the Provider "gcp-provider". *)
Definition serviceAccountOf (name externalName : string)
    (displayName description : option string) : v1alpha1.ServiceAccount :=
  {| v1alpha1.ObjectMeta :=
       {| metav1.Name := name;
          metav1.Annotations := {[ meta.AnnotationKeyExternalName := externalName ]} |};
     v1alpha1.Spec :=
       {| v1alpha1.ProviderReference :=
            Some {| corev1.Namespace := ""; corev1.Name := "gcp-provider" |};
          v1alpha1.ForProvider :=
            {| v1alpha1.DisplayName := displayName;
               v1alpha1.Description := description |} |};
     v1alpha1.Status := {| v1alpha1.AtProvider := zeroObservation |} |}.

Definition aBucket : gcpv1alpha3.Bucket :=
  {| gcpv1alpha3.bucketSpec :=
       {| gcpv1alpha3.ClaimReference := None;
          gcpv1alpha3.ClassReference := None;
          gcpv1alpha3.ProviderReference :=
            Some {| corev1.Namespace := ""; corev1.Name := "gcp-provider" |};
          gcpv1alpha3.ReclaimPolicy := "Delete";
          gcpv1alpha3.WriteConnectionSecretToReference := None |} |}.

(** A classifier for the scenarios: the provider's not-found answer is a
    googleapi error with HTTP status 404. *)
Definition isStatusNotFound (err : option error) : bool :=
  match err with
  | Some (errors.ApiError code _) => Z.eqb code 404
  | _ => false
  end.

(** A provider that gives one and the same answer to every request. *)
Definition serviceAnswering (r : iamv1.ServiceAccount + error)
  : iamv1.ProjectsServiceAccountsService :=
  {| iamv1.doGet := fun _ => r;
     iamv1.doCreate := fun _ _ => r;
     iamv1.doPatch := fun _ _ => r;
     iamv1.doDelete := fun _ => match r with inl _ => inl tt | inr e => inr e end |}.

Definition notFound : error := errors.ApiError 404 "Not found; Gaia id not found for email".

Definition forbidden : error := errors.ApiError 403 "Permission iam.serviceAccounts.get is required".

Definition atProvider : iamv1.ServiceAccount :=
  {| iamv1.Description := "";
     iamv1.Disabled := false;
     iamv1.DisplayName := "old";
     iamv1.Email := "svc-a@proj-1.iam.gserviceaccount.com";
     iamv1.Name := "projects/proj-1/serviceAccounts/svc-a@proj-1.iam.gserviceaccount.com";
     iamv1.Oauth2ClientId := "107994859614912";
     iamv1.UniqueId := "107994859614912" |}.

Definition externalOf (r : iamv1.ServiceAccount + error) : external :=
  {| serviceAccounts := Some (serviceAnswering r);
     rrn := NewRelativeResourceNamer "proj-1" |}.

(** The Provider "gcp-provider" of project proj-1, with or without a
    reference to the key "credentials.json" of the Secret
    crossplane-system/gcp-creds. *)
Definition providerOf (withRef : bool) : gcpv1alpha3.Provider :=
  {| gcpv1alpha3.Spec :=
       {| gcpv1alpha3.CredentialsSecretRef :=
            if withRef
            then Some {| runtimev1alpha1.Namespace := "crossplane-system";
                         runtimev1alpha1.Name := "gcp-creds";
                         runtimev1alpha1.Key := "credentials.json" |}
            else None;
          gcpv1alpha3.ProjectID := "proj-1" |} |}.

Definition secretWith (key : string) : corev1.Secret :=
  {| corev1.Data := {[ key := [Byte.x7b; Byte.x7d] ]} |}.

(** A connecter over a store answering [p] and [s], whose constructor is
    the package's own over a [NewService] answering [svc] whatever the
    credentials. *)
Definition connecterOf (p : gcpv1alpha3.Provider + error) (s : corev1.Secret + error)
    (svc : iamv1.ProjectsServiceAccountsService + error) : connecter :=
  {| client := {| GetProvider := fun _ => p; GetSecret := fun _ => s |};
     newSAS := newServiceAccountsAPI (fun _ => svc) |}.

Definition badCredentials : error :=
  errors.Foreign "google: could not parse credentials: unexpected end of JSON input".

Definition secretGone : error :=
  errors.Foreign "secrets gcp-creds not found".

(** The observed resource with one field replaced. *)
Definition withDisplayName (v : string) (o : iamv1.ServiceAccount) : iamv1.ServiceAccount :=
  {| iamv1.Description := iamv1.Description o;
     iamv1.Disabled := iamv1.Disabled o;
     iamv1.DisplayName := v;
     iamv1.Email := iamv1.Email o;
     iamv1.Name := iamv1.Name o;
     iamv1.Oauth2ClientId := iamv1.Oauth2ClientId o;
     iamv1.UniqueId := iamv1.UniqueId o |}.

Definition withDescription (v : string) (o : iamv1.ServiceAccount) : iamv1.ServiceAccount :=
  {| iamv1.Description := v;
     iamv1.Disabled := iamv1.Disabled o;
     iamv1.DisplayName := iamv1.DisplayName o;
     iamv1.Email := iamv1.Email o;
     iamv1.Name := iamv1.Name o;
     iamv1.Oauth2ClientId := iamv1.Oauth2ClientId o;
     iamv1.UniqueId := iamv1.UniqueId o |}.

(** The status block of the reconciled object, when it is a ServiceAccount. *)
Definition statusOf (mg : resource.Managed) : option v1alpha1.ServiceAccountStatus :=
  match mg with
  | resource.OfServiceAccount cr => Some (v1alpha1.Status cr)
  | resource.OfBucket _ => None
  end.

(** The key under which Connect fetches the Secret a selector refers to. *)
Definition secretKeyOf (sel : runtimev1alpha1.SecretKeySelector) : types.NamespacedName :=
  {| types.Namespace := runtimev1alpha1.Namespace sel;
     types.Name := runtimev1alpha1.Name sel |}.

(** How Connect fails: the client it returns, the error, and the requests
    it has issued by then. *)
Inductive ConnectFailure (c : connecter)
  : option external -> error -> list Call -> Prop :=
| FailKind :
    ConnectFailure c None (errors.Fundamental errNotServiceAccount) []
| FailGetProvider key cause :
    GetProvider (client c) key = inr cause ->
    ConnectFailure c None (errors.WithStack cause errGetProvider)
      [KubeGetProvider key]
| FailSecretRef key p :
    GetProvider (client c) key = inl p ->
    gcpv1alpha3.GetCredentialsSecretReference p = None ->
    ConnectFailure c None (errors.Fundamental errProviderSecretRef)
      [KubeGetProvider key]
| FailGetSecret key p sel cause :
    GetProvider (client c) key = inl p ->
    gcpv1alpha3.GetCredentialsSecretReference p = Some sel ->
    GetSecret (client c) (secretKeyOf sel) = inr cause ->
    ConnectFailure c None (errors.WithStack cause errGetProviderSecret)
      [KubeGetProvider key; KubeGetSecret (secretKeyOf sel)]
| FailNewClient key p sel s saAPI cause :
    GetProvider (client c) key = inl p ->
    gcpv1alpha3.GetCredentialsSecretReference p = Some sel ->
    GetSecret (client c) (secretKeyOf sel) = inl s ->
    newSAS c (corev1.Data s !! runtimev1alpha1.Key sel) = (saAPI, Some cause) ->
    ConnectFailure c
      (Some {| serviceAccounts := saAPI;
               rrn := NewRelativeResourceNamer
                        (gcpv1alpha3.ProjectID (gcpv1alpha3.Spec p)) |})
      (errors.WithStack cause errNewClient)
      [KubeGetProvider key; KubeGetSecret (secretKeyOf sel);
       NewSAS (corev1.Data s !! runtimev1alpha1.Key sel)].

(** ** The remaining generated accessors of the Bucket (apis/v1alpha3) *)

Module bucket.

(** GetClaimReference of this Bucket. *)
Definition GetClaimReference (mg : gcpv1alpha3.Bucket) : option corev1.ObjectReference :=
  gcpv1alpha3.ClaimReference (gcpv1alpha3.bucketSpec mg).

(** GetClassReference of this Bucket. *)
Definition GetClassReference (mg : gcpv1alpha3.Bucket) : option corev1.ObjectReference :=
  gcpv1alpha3.ClassReference (gcpv1alpha3.bucketSpec mg).

(** GetWriteConnectionSecretToReference of this Bucket. *)
Definition GetWriteConnectionSecretToReference (mg : gcpv1alpha3.Bucket)
  : option runtimev1alpha1.SecretReference :=
  gcpv1alpha3.WriteConnectionSecretToReference (gcpv1alpha3.bucketSpec mg).

(** SetClaimReference of this Bucket. *)
Definition SetClaimReference (mg : gcpv1alpha3.Bucket)
    (r : option corev1.ObjectReference) : gcpv1alpha3.Bucket :=
  let s := gcpv1alpha3.bucketSpec mg in
  {| gcpv1alpha3.bucketSpec :=
      {| gcpv1alpha3.ClaimReference := r;
         gcpv1alpha3.ClassReference := gcpv1alpha3.ClassReference s;
         gcpv1alpha3.ProviderReference := gcpv1alpha3.ProviderReference s;
         gcpv1alpha3.ReclaimPolicy := gcpv1alpha3.ReclaimPolicy s;
         gcpv1alpha3.WriteConnectionSecretToReference :=
           gcpv1alpha3.WriteConnectionSecretToReference s |} |}.

(** SetClassReference of this Bucket. *)
Definition SetClassReference (mg : gcpv1alpha3.Bucket)
    (r : option corev1.ObjectReference) : gcpv1alpha3.Bucket :=
  let s := gcpv1alpha3.bucketSpec mg in
  {| gcpv1alpha3.bucketSpec :=
      {| gcpv1alpha3.ClaimReference := gcpv1alpha3.ClaimReference s;
         gcpv1alpha3.ClassReference := r;
         gcpv1alpha3.ProviderReference := gcpv1alpha3.ProviderReference s;
         gcpv1alpha3.ReclaimPolicy := gcpv1alpha3.ReclaimPolicy s;
         gcpv1alpha3.WriteConnectionSecretToReference :=
           gcpv1alpha3.WriteConnectionSecretToReference s |} |}.

(** SetReclaimPolicy of this Bucket. *)
Definition SetReclaimPolicy (mg : gcpv1alpha3.Bucket) (r : string) : gcpv1alpha3.Bucket :=
  let s := gcpv1alpha3.bucketSpec mg in
  {| gcpv1alpha3.bucketSpec :=
      {| gcpv1alpha3.ClaimReference := gcpv1alpha3.ClaimReference s;
         gcpv1alpha3.ClassReference := gcpv1alpha3.ClassReference s;
         gcpv1alpha3.ProviderReference := gcpv1alpha3.ProviderReference s;
         gcpv1alpha3.ReclaimPolicy := r;
         gcpv1alpha3.WriteConnectionSecretToReference :=
           gcpv1alpha3.WriteConnectionSecretToReference s |} |}.

(** SetWriteConnectionSecretToReference of this Bucket. *)
Definition SetWriteConnectionSecretToReference (mg : gcpv1alpha3.Bucket)
    (r : option runtimev1alpha1.SecretReference) : gcpv1alpha3.Bucket :=
  let s := gcpv1alpha3.bucketSpec mg in
  {| gcpv1alpha3.bucketSpec :=
      {| gcpv1alpha3.ClaimReference := gcpv1alpha3.ClaimReference s;
         gcpv1alpha3.ClassReference := gcpv1alpha3.ClassReference s;
         gcpv1alpha3.ProviderReference := gcpv1alpha3.ProviderReference s;
         gcpv1alpha3.ReclaimPolicy := gcpv1alpha3.ReclaimPolicy s;
         gcpv1alpha3.WriteConnectionSecretToReference := r |} |}.

End bucket.

(** ** Further auxiliary definitions *)

(** What an operation leaves alone when it writes the status: the kind of
    the object with its metadata and spec. *)
Definition desiredOf (mg : resource.Managed)
  : metav1.ObjectMeta * v1alpha1.ServiceAccountSpec + gcpv1alpha3.Bucket :=
  match mg with
  | resource.OfServiceAccount cr => inl (v1alpha1.ObjectMeta cr, v1alpha1.Spec cr)
  | resource.OfBucket b => inr b
  end.

(** The status block holding the provider's answer. *)
Definition statusFrom (fromProvider : iamv1.ServiceAccount) : v1alpha1.ServiceAccountStatus :=
  {| v1alpha1.AtProvider :=
      {| v1alpha1.Name := iamv1.Name fromProvider;
         v1alpha1.Email := iamv1.Email fromProvider;
         v1alpha1.UniqueID := iamv1.UniqueId fromProvider;
         v1alpha1.Oauth2ClientID := iamv1.Oauth2ClientId fromProvider;
         v1alpha1.Disabled := iamv1.Disabled fromProvider |} |}.

(** The fields an update mask names, comma separated. *)
Fixpoint maskFields (mask : string) (field : string) : list string :=
  match mask with
  | EmptyString => [field]
  | String c rest =>
      if Ascii.eqb c ","
      then field :: maskFields rest ""
      else maskFields rest (field +:+ String c "")
  end.

Definition maskNames (mask field : string) : bool :=
  existsb (String.eqb field) (maskFields mask "").

(** A provider that honours the update mask of a patch: a field of the
    resource it holds is replaced by the field of the patch body when the
    mask names it, and kept otherwise. *)
Definition applyPatch (psar : iamv1.PatchServiceAccountRequest)
    (held : iamv1.ServiceAccount) : iamv1.ServiceAccount :=
  let body := iamv1.psarServiceAccount psar in
  let mask := iamv1.UpdateMask psar in
  {| iamv1.Description :=
       if maskNames mask "description"
       then iamv1.Description body else iamv1.Description held;
     iamv1.Disabled := iamv1.Disabled held;
     iamv1.DisplayName :=
       if maskNames mask "displayName"
       then iamv1.DisplayName body else iamv1.DisplayName held;
     iamv1.Email := iamv1.Email held;
     iamv1.Name := iamv1.Name held;
     iamv1.Oauth2ClientId := iamv1.Oauth2ClientId held;
     iamv1.UniqueId := iamv1.UniqueId held |}.

(** The request Create builds for a ServiceAccount. *)
Definition createRequestOf (cr : v1alpha1.ServiceAccount) : iamv1.CreateServiceAccountRequest :=
  {| iamv1.AccountId := meta.GetExternalName cr;
     iamv1.csarServiceAccount :=
       {| iamv1.Description :=
            match v1alpha1.Description (v1alpha1.ForProvider (v1alpha1.Spec cr)) with
            | Some d => d
            | None => ""
            end;
          iamv1.Disabled := false;
          iamv1.DisplayName :=
            match v1alpha1.DisplayName (v1alpha1.ForProvider (v1alpha1.Spec cr)) with
            | Some d => d
            | None => ""
            end;
          iamv1.Email := "";
          iamv1.Name := "";
          iamv1.Oauth2ClientId := "";
          iamv1.UniqueId := "" |} |}.

(** The request Update builds for a ServiceAccount. *)
Definition patchRequestOf (cr : v1alpha1.ServiceAccount) : iamv1.PatchServiceAccountRequest :=
  {| iamv1.psarServiceAccount := iamv1.csarServiceAccount (createRequestOf cr);
     iamv1.UpdateMask := "description,displayName" |}.

(** A ServiceAccount that carries no annotation at all. *)
Definition unannotated (name : string) : v1alpha1.ServiceAccount :=
  {| v1alpha1.ObjectMeta := {| metav1.Name := name; metav1.Annotations := ∅ |};
     v1alpha1.Spec :=
       {| v1alpha1.ProviderReference :=
            Some {| corev1.Namespace := ""; corev1.Name := "gcp-provider" |};
          v1alpha1.ForProvider :=
            {| v1alpha1.DisplayName := None; v1alpha1.Description := None |} |};
     v1alpha1.Status := {| v1alpha1.AtProvider := zeroObservation |} |}.

(** * Properties *)

(** ** Strings as character lists *)

Lemma append_cons (c : ascii) (a b : string) :
  String c a +:+ b = String c (a +:+ b).
Proof. reflexivity. Qed.

Lemma chars_app (a b : string) : chars (a +:+ b) = (chars a ++ chars b)%list.
Proof.
  induction a as [|c a IH]; [reflexivity|].
  rewrite append_cons. unfold chars in *; simpl; now rewrite IH.
Qed.

Lemma chars_inj (a b : string) : chars a = chars b -> a = b.
Proof.
  intros H.
  rewrite <- (string_of_list_ascii_of_string a), <- (string_of_list_ascii_of_string b).
  unfold chars in H; now rewrite H.
Qed.

Lemma append_empty_r (s : string) : s +:+ "" = s.
Proof.
  induction s as [|c s IH]; [reflexivity | now rewrite append_cons, IH].
Qed.

(** A separator-free prefix is determined by the text it starts. *)
Lemma slash_free_prefix (s s' : string) (r r' : list ascii) :
  hasSlash s = false -> hasSlash s' = false ->
  (chars s ++ "/"%char :: r = chars s' ++ "/"%char :: r')%list ->
  s = s' /\ r = r'.
Proof.
  revert s'; induction s as [|c s IH]; intros [|c' s'] Hs Hs' E; simpl in *.
  - injection E as ->; auto.
  - injection E as <- _. rewrite Ascii.eqb_refl in Hs'. discriminate.
  - injection E as -> _. rewrite Ascii.eqb_refl in Hs. discriminate.
  - injection E as -> E.
    destruct (Ascii.eqb c' "/"); [discriminate|].
    destruct (IH s' Hs Hs' E) as [-> ->]; auto.
Qed.

(** ** The resource namer *)

Lemma ProjectName_eq (s : string) :
  ProjectName (NewRelativeResourceNamer s) = "projects/" +:+ s.
Proof.
  unfold ProjectName; simpl. now rewrite append_empty_r.
Qed.

Lemma ResourceName_eq (s : string) (sa : v1alpha1.ServiceAccount) :
  ResourceName (NewRelativeResourceNamer s) sa =
  "projects/" +:+ s +:+ "/serviceAccounts/" +:+ meta.GetExternalName sa
    +:+ "@" +:+ s +:+ ".iam.gserviceaccount.com".
Proof. reflexivity. Qed.

Lemma ResourceName_chars (s : string) (sa : v1alpha1.ServiceAccount) :
  chars (ResourceName (NewRelativeResourceNamer s) sa) =
  (chars "projects/" ++ chars s ++ chars "/serviceAccounts/"
     ++ chars (meta.GetExternalName sa) ++ chars "@" ++ chars s
     ++ chars ".iam.gserviceaccount.com")%list.
Proof. rewrite ResourceName_eq. now rewrite !chars_app. Qed.

(** Equal addresses under one scope come from equal external names. *)
Lemma ResourceName_same_scope (s : string) (sa sa' : v1alpha1.ServiceAccount) :
  ResourceName (NewRelativeResourceNamer s) sa
    = ResourceName (NewRelativeResourceNamer s) sa' ->
  meta.GetExternalName sa = meta.GetExternalName sa'.
Proof.
  intros E. apply (f_equal chars) in E. rewrite !ResourceName_chars in E.
  apply app_inv_head in E. apply app_inv_head in E. apply app_inv_head in E.
  apply app_inv_tail in E. now apply chars_inj.
Qed.

(** Equal addresses for one external name come from equal scopes. *)
Lemma ResourceName_same_name (s s' : string) (sa sa' : v1alpha1.ServiceAccount) :
  meta.GetExternalName sa = meta.GetExternalName sa' ->
  ResourceName (NewRelativeResourceNamer s) sa
    = ResourceName (NewRelativeResourceNamer s') sa' ->
  s = s'.
Proof.
  intros Hn E. apply (f_equal chars) in E. rewrite !ResourceName_chars, Hn in E.
  apply app_inv_head in E.
  assert (Hlen : length (chars s) = length (chars s')).
  { apply (f_equal (@length ascii)) in E. rewrite !length_app in E. lia. }
  apply chars_inj. now apply (app_inj_1 _ _ _ _ Hlen) in E.
Qed.

(** Equal addresses with separator-free scopes come from equal scopes and
    equal external names. *)
Lemma ResourceName_slash_free (s s' : string) (sa sa' : v1alpha1.ServiceAccount) :
  hasSlash s = false -> hasSlash s' = false ->
  ResourceName (NewRelativeResourceNamer s) sa
    = ResourceName (NewRelativeResourceNamer s') sa' ->
  s = s' /\ meta.GetExternalName sa = meta.GetExternalName sa'.
Proof.
  intros Hs Hs' E.
  assert (s = s') as <-.
  { apply (f_equal chars) in E. rewrite !ResourceName_chars in E.
    apply app_inv_head in E. simpl in E.
    now apply slash_free_prefix in E. }
  split; [reflexivity | now apply ResourceName_same_scope in E].
Qed.

Lemma GetExternalName_serviceAccountOf (name n : string) (d e : option string) :
  meta.GetExternalName (serviceAccountOf name n d e) = n.
Proof.
  unfold meta.GetExternalName, serviceAccountOf; simpl.
  now rewrite lookup_singleton_eq.
Qed.

(** C5 (as amended).  For every scope [s] and every ServiceAccount, the
    resource address is exactly
    "projects/" + s + "/serviceAccounts/" + n + "@" + s + ".iam.gserviceaccount.com"
    with [n] the external name, and the scope address is exactly
    "projects/" + s, whatever the name.  Changing only the name changes the
    address, changing only the scope changes the address, and two
    different (scope, name) pairs whose scopes contain no "/" have
    different addresses. *)
Theorem ResourceName_address (s s' : string) (sa sa' : v1alpha1.ServiceAccount) :
  let n := meta.GetExternalName sa in
  let n' := meta.GetExternalName sa' in
  ResourceName (NewRelativeResourceNamer s) sa
    = "projects/" +:+ s +:+ "/serviceAccounts/" +:+ n +:+ "@" +:+ s
        +:+ ".iam.gserviceaccount.com"
  /\ ProjectName (NewRelativeResourceNamer s) = "projects/" +:+ s
  /\ (n <> n' ->
      ResourceName (NewRelativeResourceNamer s) sa
        <> ResourceName (NewRelativeResourceNamer s) sa')
  /\ (s <> s' -> n = n' ->
      ResourceName (NewRelativeResourceNamer s) sa
        <> ResourceName (NewRelativeResourceNamer s') sa')
  /\ (hasSlash s = false -> hasSlash s' = false -> s <> s' \/ n <> n' ->
      ResourceName (NewRelativeResourceNamer s) sa
        <> ResourceName (NewRelativeResourceNamer s') sa').
Proof.
  intros n n'; subst n n'.
  split; [apply ResourceName_eq|].
  split; [apply ProjectName_eq|].
  split; [|split].
  - intros Hn E. now apply Hn, (ResourceName_same_scope s).
  - intros Hs Hn E. now apply Hs, (ResourceName_same_name s s' sa sa').
  - intros Hf Hf' Hd E.
    destruct (ResourceName_slash_free s s' sa sa' Hf Hf' E) as [Es En].
    destruct Hd as [Hd|Hd]; now apply Hd.
Qed.

Lemma ResourceName_address_witness :
  let a := serviceAccountOf "sa-a" "svc-a" None None in
  let b := serviceAccountOf "sa-b" "svc-b" None None in
  ResourceName (NewRelativeResourceNamer "proj-1") a
    = "projects/proj-1/serviceAccounts/svc-a@proj-1.iam.gserviceaccount.com"
  /\ ProjectName (NewRelativeResourceNamer "proj-1") = "projects/proj-1"
  /\ ResourceName (NewRelativeResourceNamer "proj-1") a
       <> ResourceName (NewRelativeResourceNamer "proj-1") b
  /\ ResourceName (NewRelativeResourceNamer "proj-1") a
       <> ResourceName (NewRelativeResourceNamer "proj-2") a
  /\ ResourceName (NewRelativeResourceNamer "proj-1") a
       <> ResourceName (NewRelativeResourceNamer "proj-2") b.
Proof.
  intros a b.
  destruct (ResourceName_address "proj-1" "proj-2" a b) as (H1 & H2 & _ & _ & H5).
  destruct (ResourceName_address "proj-1" "proj-1" a b) as (_ & _ & H3 & _ & _).
  destruct (ResourceName_address "proj-1" "proj-2" a a) as (_ & _ & _ & H4 & _).
  split; [exact H1|]. split; [exact H2|].
  split; [apply H3; vm_compute; discriminate|].
  split; [apply H4; [discriminate | reflexivity]|].
  apply H5; [reflexivity | reflexivity | left; discriminate].
Defined.

(** C5, the claim as stated: two different scopes (and two different
    external names) with one and the same resource address. *)
Lemma ResourceName_collision :
  let a := serviceAccountOf "sa-a" "x@/serviceAccounts/y@/serviceAccounts/x" None None in
  let b := serviceAccountOf "sa-b" "y" None None in
  "" <> "/serviceAccounts/x@"
  /\ meta.GetExternalName a = "x@/serviceAccounts/y@/serviceAccounts/x"
  /\ meta.GetExternalName b = "y"
  /\ ResourceName (NewRelativeResourceNamer "") a
     = "projects//serviceAccounts/x@/serviceAccounts/y@/serviceAccounts/x@.iam.gserviceaccount.com"
  /\ ResourceName (NewRelativeResourceNamer "/serviceAccounts/x@") b
     = "projects//serviceAccounts/x@/serviceAccounts/y@/serviceAccounts/x@.iam.gserviceaccount.com".
Proof.
  intros a b. split; [discriminate|]. repeat split; vm_compute; reflexivity.
Qed.

(** ** Drift detection *)

Lemma strNeq_false_iff (a b : string) : strNeq a b = false <-> a = b.
Proof.
  unfold strNeq. destruct (String.eqb_spec a b); simpl; split; congruence.
Qed.

Lemma strNeq_true_iff (a b : string) : strNeq a b = true <-> a <> b.
Proof.
  unfold strNeq. destruct (String.eqb_spec a b); simpl; split; congruence.
Qed.

(** C4.  An unset desired field makes the observed value of that field
    irrelevant to [isUpToDate]; a set field that differs from the observed
    value makes it false; when every set field equals its observed value it
    is true. *)
Theorem isUpToDate_asymmetric (i : v1alpha1.ServiceAccountParameters)
    (observed : iamv1.ServiceAccount) :
  (v1alpha1.DisplayName i = None ->
     forall v, isUpToDate i (withDisplayName v observed) = isUpToDate i observed)
  /\ (v1alpha1.Description i = None ->
     forall v, isUpToDate i (withDescription v observed) = isUpToDate i observed)
  /\ (forall d, v1alpha1.DisplayName i = Some d -> d <> iamv1.DisplayName observed ->
     isUpToDate i observed = false)
  /\ (forall d, v1alpha1.Description i = Some d -> d <> iamv1.Description observed ->
     isUpToDate i observed = false)
  /\ ((forall d, v1alpha1.DisplayName i = Some d -> d = iamv1.DisplayName observed) ->
      (forall d, v1alpha1.Description i = Some d -> d = iamv1.Description observed) ->
     isUpToDate i observed = true).
Proof.
  destruct i as [dn ds]; unfold isUpToDate; simpl.
  repeat split.
  - intros -> v. reflexivity.
  - intros -> v. reflexivity.
  - intros d -> Hd. apply strNeq_true_iff in Hd. now rewrite Hd.
  - intros d -> Hd. apply strNeq_true_iff in Hd. rewrite Hd.
    now destruct dn as [d'|]; [destruct (strNeq d' _)|].
  - intros Hn Hs.
    destruct dn as [d|].
    + rewrite (proj2 (strNeq_false_iff _ _) (Hn d eq_refl)).
      destruct ds as [d'|]; [|reflexivity].
      now rewrite (proj2 (strNeq_false_iff _ _) (Hs d' eq_refl)).
    + destruct ds as [d'|]; [|reflexivity].
      now rewrite (proj2 (strNeq_false_iff _ _) (Hs d' eq_refl)).
Qed.

Lemma isUpToDate_asymmetric_witness :
  (isUpToDate {| v1alpha1.DisplayName := None; v1alpha1.Description := Some "" |}
     (withDisplayName "changed" atProvider)
   = isUpToDate {| v1alpha1.DisplayName := None; v1alpha1.Description := Some "" |}
       atProvider)
  /\ (isUpToDate {| v1alpha1.DisplayName := Some "old"; v1alpha1.Description := None |}
        (withDescription "changed" atProvider)
      = isUpToDate {| v1alpha1.DisplayName := Some "old"; v1alpha1.Description := None |}
          atProvider)
  /\ isUpToDate {| v1alpha1.DisplayName := Some "new"; v1alpha1.Description := None |}
       atProvider = false
  /\ isUpToDate {| v1alpha1.DisplayName := None; v1alpha1.Description := Some "batch" |}
       atProvider = false
  /\ isUpToDate {| v1alpha1.DisplayName := Some "old"; v1alpha1.Description := None |}
       atProvider = true.
Proof.
  split; [|split; [|split; [|split]]].
  - destruct (isUpToDate_asymmetric
                {| v1alpha1.DisplayName := None; v1alpha1.Description := Some "" |}
                atProvider) as (H & _).
    exact (H eq_refl "changed").
  - destruct (isUpToDate_asymmetric
                {| v1alpha1.DisplayName := Some "old"; v1alpha1.Description := None |}
                atProvider) as (_ & H & _).
    exact (H eq_refl "changed").
  - destruct (isUpToDate_asymmetric
                {| v1alpha1.DisplayName := Some "new"; v1alpha1.Description := None |}
                atProvider) as (_ & _ & H & _).
    apply (H "new"); [reflexivity | discriminate].
  - destruct (isUpToDate_asymmetric
                {| v1alpha1.DisplayName := None; v1alpha1.Description := Some "batch" |}
                atProvider) as (_ & _ & _ & H & _).
    apply (H "batch"); [reflexivity | discriminate].
  - destruct (isUpToDate_asymmetric
                {| v1alpha1.DisplayName := Some "old"; v1alpha1.Description := None |}
                atProvider) as (_ & _ & _ & _ & H).
    apply H; simpl; intros d E; [now injection E as <- | discriminate].
Defined.

(** ** The external client *)

Section ExternalProperties.

Variable IsErrorNotFound : option error -> bool.

(** C2.  On a ServiceAccount, when the provider's delete call reports
    not-found, Delete returns a nil error; every other error of the
    delete call is returned wrapped with [errDelete].  Either way the
    delete call is the one request issued and the object is untouched. *)
Theorem Delete_not_found_is_success (e : external)
    (svc : iamv1.ProjectsServiceAccountsService)
    (cr : v1alpha1.ServiceAccount) (log : list Call) (err : error) :
  serviceAccounts e = Some svc ->
  iamv1.doDelete svc (ResourceName (rrn e) cr) = inr err ->
  let st := {| object := resource.OfServiceAccount cr; calls := log |} in
  let st' := {| object := resource.OfServiceAccount cr;
                calls := log ++ [IamDelete (ResourceName (rrn e) cr)] |} in
  (IsErrorNotFound (Some err) = true ->
     Delete IsErrorNotFound e st = (Returned None, st'))
  /\ (IsErrorNotFound (Some err) = false ->
     Delete IsErrorNotFound e st
       = (Returned (Some (errors.WithStack err errDelete)), st')).
Proof.
  intros Hsvc Hdel st st'; subst st st'.
  unfold Delete, bind, load, deref, issue, ret; simpl.
  rewrite Hsvc; simpl. rewrite Hdel; simpl.
  split; intros ->; reflexivity.
Qed.

(** C3.  On a ServiceAccount, when the provider's get call reports
    not-found, Observe returns ResourceExists = false with a nil error;
    for every other error of the get call it returns the zero observation
    and the error wrapped with [errGet].  Either way the object is
    untouched. *)
Theorem Observe_not_found_is_absent (e : external)
    (svc : iamv1.ProjectsServiceAccountsService)
    (cr : v1alpha1.ServiceAccount) (log : list Call) (err : error) :
  serviceAccounts e = Some svc ->
  iamv1.doGet svc (ResourceName (rrn e) cr) = inr err ->
  let st := {| object := resource.OfServiceAccount cr; calls := log |} in
  let st' := {| object := resource.OfServiceAccount cr;
                calls := log ++ [IamGet (ResourceName (rrn e) cr)] |} in
  (IsErrorNotFound (Some err) = true ->
     Observe IsErrorNotFound e st
       = (Returned ({| managed.ResourceExists := false;
                       managed.ResourceUpToDate := false;
                       managed.eoConnectionDetails := None |}, None), st'))
  /\ (IsErrorNotFound (Some err) = false ->
     Observe IsErrorNotFound e st
       = (Returned (managed.noObservation, Some (errors.WithStack err errGet)), st')).
Proof.
  intros Hsvc Hget st st'; subst st st'.
  unfold Observe, bind, load, deref, issue, ret; simpl.
  rewrite Hsvc; simpl. rewrite Hget; simpl.
  split; intros ->; reflexivity.
Qed.

End ExternalProperties.

Lemma Delete_not_found_is_success_witness :
  let cr := serviceAccountOf "sa-a" "svc-a" None None in
  let st' := {| object := resource.OfServiceAccount cr;
                calls := [IamDelete "projects/proj-1/serviceAccounts/svc-a@proj-1.iam.gserviceaccount.com"] |} in
  Delete isStatusNotFound (externalOf (inr notFound))
    {| object := resource.OfServiceAccount cr; calls := [] |}
  = (Returned None, st')
  /\ Delete isStatusNotFound (externalOf (inr forbidden))
       {| object := resource.OfServiceAccount cr; calls := [] |}
     = (Returned (Some (errors.WithStack forbidden errDelete)), st').
Proof.
  intros cr st'. split.
  - apply (Delete_not_found_is_success isStatusNotFound (externalOf (inr notFound))
             (serviceAnswering (inr notFound)) cr [] notFound);
      reflexivity.
  - apply (Delete_not_found_is_success isStatusNotFound (externalOf (inr forbidden))
             (serviceAnswering (inr forbidden)) cr [] forbidden);
      reflexivity.
Defined.

Lemma Observe_not_found_is_absent_witness :
  let cr := serviceAccountOf "sa-a" "svc-a" None None in
  let st := {| object := resource.OfServiceAccount cr; calls := [] |} in
  let st' := {| object := resource.OfServiceAccount cr;
                calls := [IamGet "projects/proj-1/serviceAccounts/svc-a@proj-1.iam.gserviceaccount.com"] |} in
  Observe isStatusNotFound (externalOf (inr notFound)) st
  = (Returned ({| managed.ResourceExists := false;
                  managed.ResourceUpToDate := false;
                  managed.eoConnectionDetails := None |}, None), st')
  /\ Observe isStatusNotFound (externalOf (inr forbidden)) st
     = (Returned (managed.noObservation, Some (errors.WithStack forbidden errGet)), st').
Proof.
  intros cr st st'. split.
  - apply (Observe_not_found_is_absent isStatusNotFound (externalOf (inr notFound))
             (serviceAnswering (inr notFound)) cr [] notFound);
      reflexivity.
  - apply (Observe_not_found_is_absent isStatusNotFound (externalOf (inr forbidden))
             (serviceAnswering (inr forbidden)) cr [] forbidden);
      reflexivity.
Defined.

(** C6.  Update sends its patch request with the update mask
    "description,displayName": every patch request Update adds to the log
    carries that mask, and on a ServiceAccount (with a service at hand)
    Update issues exactly one request, the patch of the resource address
    with the projected desired fields under that mask, whatever the desired
    fields are and whatever the provider holds or answers. *)
Theorem Update_mask_is_fixed (e : external) (st : Store) :
  (forall name psar,
     In (IamPatch name psar) (calls (snd (Update e st))) ->
     In (IamPatch name psar) (calls st)
     \/ iamv1.UpdateMask psar = "description,displayName")
  /\ (forall cr svc,
        object st = resource.OfServiceAccount cr ->
        serviceAccounts e = Some svc ->
        calls (snd (Update e st))
        = calls st ++
            [IamPatch (ResourceName (rrn e) cr)
               {| iamv1.psarServiceAccount := populateProviderFromCR iamv1.zero cr;
                  iamv1.UpdateMask := "description,displayName" |}]).
Proof.
  destruct st as [mg log]. split.
  - intros name psar.
    unfold Update, bind, load, deref, issue, ret, panic; simpl.
    destruct mg as [cr|b]; simpl; [|now left].
    destruct (serviceAccounts e) as [svc|]; simpl; [|now left].
    rewrite in_app_iff; simpl.
    intros [H|[H|[]]]; [now left|].
    right. now injection H as <- <-.
  - intros cr svc Hmg Hsvc; simpl in Hmg; subst mg.
    unfold Update, bind, load, deref, issue, ret; simpl.
    now rewrite Hsvc.
Qed.

Lemma Update_mask_is_fixed_witness :
  let cr := serviceAccountOf "sa-a" "svc-a" (Some "new") None in
  calls (snd (Update (externalOf (inl atProvider))
                {| object := resource.OfServiceAccount cr; calls := [] |}))
  = [IamPatch "projects/proj-1/serviceAccounts/svc-a@proj-1.iam.gserviceaccount.com"
       {| iamv1.psarServiceAccount := withDisplayName "new" iamv1.zero;
          iamv1.UpdateMask := "description,displayName" |}].
Proof.
  intros cr.
  destruct (Update_mask_is_fixed (externalOf (inl atProvider))
              {| object := resource.OfServiceAccount cr; calls := [] |}) as [_ H].
  exact (H cr (serviceAnswering (inl atProvider)) eq_refl eq_refl).
Defined.

(** C7.  Update leaves the managed object as it found it, the status
    fields in particular, whether the patch call succeeds, fails or is
    never reached: the patch response is not projected back. *)
Theorem Update_preserves_status (e : external) (st : Store) :
  object (snd (Update e st)) = object st
  /\ statusOf (object (snd (Update e st))) = statusOf (object st).
Proof.
  assert (H : object (snd (Update e st)) = object st).
  { destruct st as [mg log].
    unfold Update, bind, load, deref, issue, ret, panic; simpl.
    destruct mg as [cr|b]; simpl; [|reflexivity].
    destruct (serviceAccounts e) as [svc|]; reflexivity. }
  split; [exact H | now rewrite H].
Qed.

(** The scope address is never the resource address. *)
Lemma ProjectName_not_ResourceName (r : RelativeResourceNamer)
    (cr : v1alpha1.ServiceAccount) :
  ProjectName r <> ResourceName r cr.
Proof.
  destruct r as [s]. fold (NewRelativeResourceNamer s).
  intros E. apply (f_equal chars) in E.
  rewrite ResourceName_chars, ProjectName_eq, chars_app in E.
  apply app_inv_head in E.
  rewrite <- (app_nil_r (chars s)) in E at 1.
  apply app_inv_head in E. discriminate E.
Qed.

(** C8.  On a ServiceAccount (with a service at hand) Create issues one
    request, a create whose key is the scope address "projects/" + scope,
    which is not the resource address, whose AccountId is the external
    name, and whose display name and description are the desired values,
    the empty string standing for an absent one. *)
Theorem Create_request (e : external) (svc : iamv1.ProjectsServiceAccountsService)
    (cr : v1alpha1.ServiceAccount) (log : list Call) :
  serviceAccounts e = Some svc ->
  exists csar,
    calls (snd (Create e {| object := resource.OfServiceAccount cr; calls := log |}))
    = log ++ [IamCreate (ProjectName (rrn e)) csar]
    /\ ProjectName (rrn e) = "projects/" +:+ projectName (rrn e)
    /\ ProjectName (rrn e) <> ResourceName (rrn e) cr
    /\ iamv1.AccountId csar = meta.GetExternalName cr
    /\ iamv1.DisplayName (iamv1.csarServiceAccount csar)
       = match v1alpha1.DisplayName (v1alpha1.ForProvider (v1alpha1.Spec cr)) with
         | Some d => d
         | None => ""
         end
    /\ iamv1.Description (iamv1.csarServiceAccount csar)
       = match v1alpha1.Description (v1alpha1.ForProvider (v1alpha1.Spec cr)) with
         | Some d => d
         | None => ""
         end.
Proof.
  intros Hsvc. eexists. split.
  - unfold Create, bind, load, deref, issue, ret; simpl.
    rewrite Hsvc; simpl.
    destruct (iamv1.doCreate svc _ _); reflexivity.
  - split; [destruct (rrn e) as [s]; apply (ProjectName_eq s)|].
    split; [apply ProjectName_not_ResourceName|].
    simpl. repeat split; reflexivity.
Qed.

Lemma Create_request_witness :
  exists csar,
    calls (snd (Create (externalOf (inl atProvider))
                  {| object := resource.OfServiceAccount
                                 (serviceAccountOf "sa-a" "svc-a" (Some "new") None);
                     calls := [] |}))
    = [IamCreate "projects/proj-1" csar]
    /\ iamv1.AccountId csar = "svc-a"
    /\ iamv1.DisplayName (iamv1.csarServiceAccount csar) = "new"
    /\ iamv1.Description (iamv1.csarServiceAccount csar) = "".
Proof.
  destruct (Create_request (externalOf (inl atProvider)) (serviceAnswering (inl atProvider))
              (serviceAccountOf "sa-a" "svc-a" (Some "new") None) [] eq_refl)
    as (csar & Hc & _ & _ & Ha & Hd & Hs).
  exists csar. repeat split; assumption.
Defined.

(** C9.  On a managed resource that is not a ServiceAccount, each of
    Connect, Observe, Create, Update and Delete returns the error
    "managed resource is not a GCP ServiceAccount" with the zero result,
    and leaves the store as it was: no request to the Kubernetes client,
    the client constructor or the provider is issued, and none is
    repeated. *)
Theorem wrong_kind_is_rejected (IsErrorNotFound : option error -> bool)
    (c : connecter) (e : external) (mg : resource.Managed) (log : list Call) :
  (forall cr, mg <> resource.OfServiceAccount cr) ->
  let st := {| object := mg; calls := log |} in
  let wrongKind := Some (errors.Fundamental "managed resource is not a GCP ServiceAccount") in
  Connect c st = (Returned (None, wrongKind), st)
  /\ Observe IsErrorNotFound e st = (Returned (managed.noObservation, wrongKind), st)
  /\ Create e st = (Returned (managed.noCreation, wrongKind), st)
  /\ Update e st = (Returned (managed.noUpdate, wrongKind), st)
  /\ Delete IsErrorNotFound e st = (Returned wrongKind, st).
Proof.
  intros Hk st wrongKind; subst st wrongKind.
  destruct mg as [cr|b]; [now destruct (Hk cr)|].
  repeat split; reflexivity.
Qed.

Lemma wrong_kind_is_rejected_witness :
  let st := {| object := resource.OfBucket aBucket; calls := [] |} in
  let wrongKind := Some (errors.Fundamental "managed resource is not a GCP ServiceAccount") in
  Connect (connecterOf (inl (providerOf true)) (inl (secretWith "credentials.json"))
             (inl (serviceAnswering (inl atProvider)))) st
  = (Returned (None, wrongKind), st)
  /\ Observe isStatusNotFound (externalOf (inl atProvider)) st
     = (Returned (managed.noObservation, wrongKind), st)
  /\ Create (externalOf (inl atProvider)) st = (Returned (managed.noCreation, wrongKind), st)
  /\ Update (externalOf (inl atProvider)) st = (Returned (managed.noUpdate, wrongKind), st)
  /\ Delete isStatusNotFound (externalOf (inl atProvider)) st = (Returned wrongKind, st).
Proof.
  intros st wrongKind.
  apply (wrong_kind_is_rejected isStatusNotFound
           (connecterOf (inl (providerOf true)) (inl (secretWith "credentials.json"))
              (inl (serviceAnswering (inl atProvider))))
           (externalOf (inl atProvider)) (resource.OfBucket aBucket) []).
  intros cr; discriminate.
Defined.

(** ** The connecter *)

(** Connect on a ServiceAccount whose provider reference is set, step by
    step. *)
Lemma Connect_steps (c : connecter) (cr : v1alpha1.ServiceAccount)
    (ref : corev1.ObjectReference) (log : list Call) :
  v1alpha1.ProviderReference (v1alpha1.Spec cr) = Some ref ->
  let mg := resource.OfServiceAccount cr in
  let key := meta.NamespacedNameOf ref in
  Connect c {| object := mg; calls := log |} =
  match GetProvider (client c) key with
  | inr err =>
      (Returned (None, Some (errors.WithStack err errGetProvider)),
       {| object := mg; calls := log ++ [KubeGetProvider key] |})
  | inl p =>
      match gcpv1alpha3.GetCredentialsSecretReference p with
      | None =>
          (Returned (None, Some (errors.Fundamental errProviderSecretRef)),
           {| object := mg; calls := log ++ [KubeGetProvider key] |})
      | Some sel =>
          match GetSecret (client c) (secretKeyOf sel) with
          | inr err =>
              (Returned (None, Some (errors.WithStack err errGetProviderSecret)),
               {| object := mg;
                  calls := log ++ [KubeGetProvider key; KubeGetSecret (secretKeyOf sel)] |})
          | inl s =>
              let creds := corev1.Data s !! runtimev1alpha1.Key sel in
              (Returned
                 (Some {| serviceAccounts := fst (newSAS c creds);
                          rrn := NewRelativeResourceNamer
                                   (gcpv1alpha3.ProjectID (gcpv1alpha3.Spec p)) |},
                  errors.Wrap (snd (newSAS c creds)) errNewClient),
               {| object := mg;
                  calls := log ++ [KubeGetProvider key; KubeGetSecret (secretKeyOf sel);
                                   NewSAS creds] |})
          end
      end
  end.
Proof.
  intros Href mg key; subst mg key.
  unfold Connect, bind, load, deref, issue, ret; simpl.
  rewrite Href; simpl.
  destruct (GetProvider (client c) _) as [p|err]; simpl; [|reflexivity].
  destruct (gcpv1alpha3.GetCredentialsSecretReference p) as [sel|]; simpl; [|reflexivity].
  unfold secretKeyOf.
  destruct (GetSecret (client c) _) as [s|err]; simpl;
    rewrite <- ?app_assoc; simpl; [|reflexivity].
  destruct (newSAS c _) as [saAPI err]; reflexivity.
Qed.

(** C1 (as amended).  Whenever Connect returns a non-nil error it has
    stopped at the first step that failed and left the object alone.  When
    that step is the kind check, the Provider fetch, the credential
    reference check or the Secret fetch, no client is returned and no later
    request has been issued.  When it is the client constructor, the
    constructor's error is returned wrapped with [errNewClient] together
    with a non-nil client holding whatever service the constructor returned
    and the namer of the Provider's project.  So no client accompanies the
    error exactly when the error is not the wrapped constructor error. *)
Theorem Connect_failure (c : connecter) (st st' : Store)
    (cl : option external) (err : error) :
  Connect c st = (Returned (cl, Some err), st') ->
  object st' = object st
  /\ (exists issued, calls st' = calls st ++ issued /\ ConnectFailure c cl err issued)
  /\ (cl = None <-> forall cause, err <> errors.WithStack cause errNewClient).
Proof.
  intros H.
  assert (HF : object st' = object st
               /\ exists issued, calls st' = calls st ++ issued
                                 /\ ConnectFailure c cl err issued).
  { destruct st as [mg log]. destruct mg as [cr|b].
    - destruct (v1alpha1.ProviderReference (v1alpha1.Spec cr)) as [ref|] eqn:Href.
      + rewrite (Connect_steps c cr ref log Href) in H. simpl in H.
        destruct (GetProvider _ _) as [p|cause] eqn:Hp.
        * destruct (gcpv1alpha3.GetCredentialsSecretReference p) as [sel|] eqn:Hsel.
          -- destruct (GetSecret _ _) as [s|cause] eqn:Hs.
             ++ destruct (newSAS c _) as [saAPI [cause|]] eqn:Hn; simpl in H;
                  [|discriminate].
                injection H as <- <- <-. simpl. split; [reflexivity|].
                eexists; split; [reflexivity|]. eapply FailNewClient; eassumption.
             ++ injection H as <- <- <-. simpl. split; [reflexivity|].
                eexists; split; [reflexivity|]. eapply FailGetSecret; eassumption.
          -- injection H as <- <- <-. simpl. split; [reflexivity|].
             eexists; split; [reflexivity|]. eapply FailSecretRef; eassumption.
        * injection H as <- <- <-. simpl. split; [reflexivity|].
          eexists; split; [reflexivity|]. eapply FailGetProvider; eassumption.
      + unfold Connect, bind, load, deref, panic in H; simpl in H.
        rewrite Href in H. discriminate.
    - injection H as <- <- <-. simpl. split; [reflexivity|].
      exists []. split; [now rewrite app_nil_r | constructor]. }
  destruct HF as (Hobj & issued & Hcalls & Hfail).
  split; [exact Hobj|]. split; [now exists issued|].
  destruct Hfail as [|key cause E1|key p E1 E2|key p sel cause E1 E2 E3
                     |key p sel s saAPI cause E1 E2 E3 E4].
  1-4: split; [intros _ cause0 E; cbv in E; discriminate E | reflexivity].
  split; [discriminate | intros Hne; now destruct (Hne cause)].
Qed.

Lemma Connect_failure_witness :
  let c := connecterOf (inl (providerOf true)) (inl (secretWith "credentials.json"))
             (inr badCredentials) in
  let cr := serviceAccountOf "sa-a" "svc-a" None None in
  exists issued,
    issued = [KubeGetProvider {| types.Namespace := ""; types.Name := "gcp-provider" |};
              KubeGetSecret {| types.Namespace := "crossplane-system";
                               types.Name := "gcp-creds" |};
              NewSAS (Some [Byte.x7b; Byte.x7d])]
    /\ ConnectFailure c
         (Some {| serviceAccounts := None; rrn := NewRelativeResourceNamer "proj-1" |})
         (errors.WithStack badCredentials errNewClient) issued.
Proof.
  intros c cr.
  destruct (Connect_failure c
              {| object := resource.OfServiceAccount cr; calls := [] |}
              {| object := resource.OfServiceAccount cr;
                 calls := [KubeGetProvider {| types.Namespace := "";
                                              types.Name := "gcp-provider" |};
                           KubeGetSecret {| types.Namespace := "crossplane-system";
                                            types.Name := "gcp-creds" |};
                           NewSAS (Some [Byte.x7b; Byte.x7d])] |}
              (Some {| serviceAccounts := None; rrn := NewRelativeResourceNamer "proj-1" |})
              (errors.WithStack badCredentials errNewClient))
    as (_ & (issued & Hc & Hf) & _).
  - vm_compute. reflexivity.
  - exists issued. split; [symmetry; exact Hc | exact Hf].
Defined.

(** C1, the claim as stated: the constructor rejects the credentials and
    Connect returns its error together with a client that is not nil. *)
Lemma Connect_error_with_client :
  Connect (connecterOf (inl (providerOf true)) (inl (secretWith "credentials.json"))
             (inr badCredentials))
    {| object := resource.OfServiceAccount (serviceAccountOf "sa-a" "svc-a" None None);
       calls := [] |}
  = (Returned
       (Some {| serviceAccounts := None; rrn := NewRelativeResourceNamer "proj-1" |},
        Some (errors.WithStack badCredentials
                "cannot create new GCP IAM API client")),
     {| object := resource.OfServiceAccount (serviceAccountOf "sa-a" "svc-a" None None);
        calls := [KubeGetProvider {| types.Namespace := ""; types.Name := "gcp-provider" |};
                  KubeGetSecret {| types.Namespace := "crossplane-system";
                                   types.Name := "gcp-creds" |};
                  NewSAS (Some [Byte.x7b; Byte.x7d])] |}).
Proof. vm_compute. reflexivity. Qed.

(** C10.  With the Provider and its credential reference in place: when
    the Secret is there but lacks the referenced key, Connect raises no
    error of its own, it hands nil credentials to the client constructor
    and returns what construction yields (its service, its error wrapped
    with [errNewClient]); when the Secret itself cannot be fetched, Connect
    returns that error wrapped with [errGetProviderSecret] and the
    constructor is not called. *)
Theorem Connect_missing_key (c : connecter) (cr : v1alpha1.ServiceAccount)
    (ref : corev1.ObjectReference) (p : gcpv1alpha3.Provider)
    (sel : runtimev1alpha1.SecretKeySelector) (log : list Call) :
  v1alpha1.ProviderReference (v1alpha1.Spec cr) = Some ref ->
  GetProvider (client c) (meta.NamespacedNameOf ref) = inl p ->
  gcpv1alpha3.GetCredentialsSecretReference p = Some sel ->
  let mg := resource.OfServiceAccount cr in
  let fetched := [KubeGetProvider (meta.NamespacedNameOf ref);
                  KubeGetSecret (secretKeyOf sel)] in
  (forall s,
     GetSecret (client c) (secretKeyOf sel) = inl s ->
     corev1.Data s !! runtimev1alpha1.Key sel = None ->
     Connect c {| object := mg; calls := log |}
     = (Returned
          (Some {| serviceAccounts := fst (newSAS c None);
                   rrn := NewRelativeResourceNamer
                            (gcpv1alpha3.ProjectID (gcpv1alpha3.Spec p)) |},
           errors.Wrap (snd (newSAS c None)) errNewClient),
        {| object := mg; calls := log ++ fetched ++ [NewSAS None] |}))
  /\ (forall cause,
        GetSecret (client c) (secretKeyOf sel) = inr cause ->
        Connect c {| object := mg; calls := log |}
        = (Returned (None, Some (errors.WithStack cause errGetProviderSecret)),
           {| object := mg; calls := log ++ fetched |})).
Proof.
  intros Href Hp Hsel mg fetched; subst mg fetched.
  split.
  - intros s Hs Hkey.
    rewrite (Connect_steps c cr ref log Href); simpl.
    now rewrite Hp, Hsel, Hs, Hkey.
  - intros cause Hs.
    rewrite (Connect_steps c cr ref log Href); simpl.
    now rewrite Hp, Hsel, Hs.
Qed.

Lemma Connect_missing_key_witness :
  let cr := serviceAccountOf "sa-a" "svc-a" None None in
  let mg := resource.OfServiceAccount cr in
  let fetched := [KubeGetProvider {| types.Namespace := ""; types.Name := "gcp-provider" |};
                  KubeGetSecret {| types.Namespace := "crossplane-system";
                                   types.Name := "gcp-creds" |}] in
  Connect (connecterOf (inl (providerOf true)) (inl (secretWith "token"))
             (inr badCredentials))
    {| object := mg; calls := [] |}
  = (Returned
       (Some {| serviceAccounts := None; rrn := NewRelativeResourceNamer "proj-1" |},
        Some (errors.WithStack badCredentials errNewClient)),
     {| object := mg; calls := fetched ++ [NewSAS None] |})
  /\ Connect (connecterOf (inl (providerOf true)) (inr secretGone) (inr badCredentials))
       {| object := mg; calls := [] |}
     = (Returned (None, Some (errors.WithStack secretGone errGetProviderSecret)),
        {| object := mg; calls := fetched |}).
Proof.
  intros cr mg fetched. split.
  - destruct (Connect_missing_key
                (connecterOf (inl (providerOf true)) (inl (secretWith "token"))
                   (inr badCredentials))
                cr {| corev1.Namespace := ""; corev1.Name := "gcp-provider" |}
                (providerOf true)
                {| runtimev1alpha1.Namespace := "crossplane-system";
                   runtimev1alpha1.Name := "gcp-creds";
                   runtimev1alpha1.Key := "credentials.json" |} []
                eq_refl eq_refl eq_refl) as [H _].
    apply (H (secretWith "token") eq_refl). vm_compute. reflexivity.
  - destruct (Connect_missing_key
                (connecterOf (inl (providerOf true)) (inr secretGone) (inr badCredentials))
                cr {| corev1.Namespace := ""; corev1.Name := "gcp-provider" |}
                (providerOf true)
                {| runtimev1alpha1.Namespace := "crossplane-system";
                   runtimev1alpha1.Name := "gcp-creds";
                   runtimev1alpha1.Key := "credentials.json" |} []
                eq_refl eq_refl eq_refl) as [_ H].
    apply (H secretGone eq_refl).
Defined.

(** ** Scenarios *)

(** The provider holds displayName "old", the desired displayName is "new"
    and the description is unset: Observe projects the provider's fields
    into the status and reports drift. *)
Example Observe_reports_drift :
  let cr := serviceAccountOf "sa-a" "svc-a" (Some "new") None in
  Observe isStatusNotFound (externalOf (inl atProvider))
    {| object := resource.OfServiceAccount cr; calls := [] |}
  = (Returned ({| managed.ResourceExists := true;
                  managed.ResourceUpToDate := false;
                  managed.eoConnectionDetails := Some ∅ |}, None),
     {| object := resource.OfServiceAccount (populateCRFromProvider cr atProvider);
        calls := [IamGet "projects/proj-1/serviceAccounts/svc-a@proj-1.iam.gserviceaccount.com"] |}).
Proof. reflexivity. Qed.

(** The desired displayName matches and the description is unset: up to
    date. *)
Example Observe_reports_up_to_date :
  let cr := serviceAccountOf "sa-a" "svc-a" (Some "old") None in
  fst (Observe isStatusNotFound (externalOf (inl atProvider))
         {| object := resource.OfServiceAccount cr; calls := [] |})
  = Returned ({| managed.ResourceExists := true;
                 managed.ResourceUpToDate := true;
                 managed.eoConnectionDetails := Some ∅ |}, None).
Proof. reflexivity. Qed.

(** A client whose service is nil panics on its first request. *)
Example Observe_on_nil_service :
  fst (Observe isStatusNotFound
         {| serviceAccounts := None; rrn := NewRelativeResourceNamer "proj-1" |}
         {| object := resource.OfServiceAccount (serviceAccountOf "sa-a" "svc-a" None None);
            calls := [] |})
  = Panicked "invalid memory address or nil pointer dereference".
Proof. reflexivity. Qed.

(** A Provider without a credential reference stops Connect before the
    Secret is fetched. *)
Example Connect_without_secret_reference :
  let mg := resource.OfServiceAccount (serviceAccountOf "sa-a" "svc-a" None None) in
  Connect (connecterOf (inl (providerOf false)) (inl (secretWith "credentials.json"))
             (inl (serviceAnswering (inl atProvider))))
    {| object := mg; calls := [] |}
  = (Returned (None, Some (errors.Fundamental "cannot find Secret reference on Provider")),
     {| object := mg;
        calls := [KubeGetProvider {| types.Namespace := ""; types.Name := "gcp-provider" |}] |}).
Proof. reflexivity. Qed.

(** * Further properties of the controller *)

(** ** Observe *)

Local Arguments ResourceName : simpl never.
Local Arguments ProjectName : simpl never.

(** One step of the state monad, unfolded. *)
Ltac run := unfold bind, load, store, issue, deref, ret, panic; simpl.

(** The status is no part of the resource address. *)
Lemma ResourceName_populate (r : RelativeResourceNamer) (cr : v1alpha1.ServiceAccount)
    (fromProvider : iamv1.ServiceAccount) :
  ResourceName r (populateCRFromProvider cr fromProvider) = ResourceName r cr.
Proof. reflexivity. Qed.

(** X1.  When the provider's get call succeeds (and the classifier does
    not take a nil error for not-found), Observe reports that the resource
    exists, reports the verdict of [isUpToDate] on the desired parameters,
    returns empty connection details and a nil error, writes the five
    provider fields into the status, keeps metadata and spec, and has
    issued the one get request at the resource address. *)
Theorem Observe_found (IsErrorNotFound : option error -> bool) (e : external)
    (svc : iamv1.ProjectsServiceAccountsService) (cr : v1alpha1.ServiceAccount)
    (log : list Call) (fromProvider : iamv1.ServiceAccount) :
  IsErrorNotFound None = false ->
  serviceAccounts e = Some svc ->
  iamv1.doGet svc (ResourceName (rrn e) cr) = inl fromProvider ->
  Observe IsErrorNotFound e {| object := resource.OfServiceAccount cr; calls := log |}
  = (Returned
       ({| managed.ResourceExists := true;
           managed.ResourceUpToDate :=
             isUpToDate (v1alpha1.ForProvider (v1alpha1.Spec cr)) fromProvider;
           managed.eoConnectionDetails := Some ∅ |}, None),
     {| object :=
          resource.OfServiceAccount
            {| v1alpha1.ObjectMeta := v1alpha1.ObjectMeta cr;
               v1alpha1.Spec := v1alpha1.Spec cr;
               v1alpha1.Status := statusFrom fromProvider |};
        calls := log ++ [IamGet (ResourceName (rrn e) cr)] |}).
Proof.
  intros Hnil Hsvc Hget. unfold Observe. run.
  rewrite Hsvc; simpl. rewrite Hget; simpl. now rewrite Hnil.
Qed.

Lemma Observe_found_witness :
  let cr := serviceAccountOf "sa-a" "svc-a" (Some "old") None in
  Observe isStatusNotFound (externalOf (inl atProvider))
    {| object := resource.OfServiceAccount cr; calls := [] |}
  = (Returned
       ({| managed.ResourceExists := true;
           managed.ResourceUpToDate := true;
           managed.eoConnectionDetails := Some ∅ |}, None),
     {| object :=
          resource.OfServiceAccount
            {| v1alpha1.ObjectMeta := v1alpha1.ObjectMeta cr;
               v1alpha1.Spec := v1alpha1.Spec cr;
               v1alpha1.Status := statusFrom atProvider |};
        calls := [IamGet "projects/proj-1/serviceAccounts/svc-a@proj-1.iam.gserviceaccount.com"] |}).
Proof.
  intros cr.
  exact (Observe_found isStatusNotFound (externalOf (inl atProvider))
           (serviceAnswering (inl atProvider)) cr [] atProvider
           eq_refl eq_refl eq_refl).
Defined.

(** X2.  Whatever Observe returns: an error comes with the zero
    observation and an untouched object; a resource reported absent leaves
    the object untouched; a resource reported up to date is reported to
    exist; and a resource reported to exist comes with a nil error and
    (empty) connection details. *)
Theorem Observe_result_invariants (IsErrorNotFound : option error -> bool)
    (e : external) (st st' : Store) (o : managed.ExternalObservation)
    (err : option error) :
  Observe IsErrorNotFound e st = (Returned (o, err), st') ->
  (err <> None -> o = managed.noObservation /\ object st' = object st)
  /\ (managed.ResourceExists o = false -> object st' = object st)
  /\ (managed.ResourceUpToDate o = true -> managed.ResourceExists o = true)
  /\ (managed.ResourceExists o = true ->
      err = None /\ managed.eoConnectionDetails o = Some ∅).
Proof.
  destruct st as [mg log]. unfold Observe. run.
  destruct mg as [cr|b]; simpl.
  - destruct (serviceAccounts e) as [svc|]; simpl; [|discriminate].
    destruct (IsErrorNotFound _); simpl.
    + intros H; injection H as <- <- <-; simpl.
      intuition congruence.
    + destruct (iamv1.doGet svc _) as [fp|cause]; simpl;
        intros H; injection H as <- <- <-; simpl;
        intuition congruence.
  - intros H; injection H as <- <- <-; simpl.
    intuition congruence.
Qed.

Lemma Observe_result_invariants_witness :
  let cr := serviceAccountOf "sa-a" "svc-a" None None in
  managed.noObservation = managed.noObservation
  /\ object {| object := resource.OfServiceAccount cr;
               calls := [IamGet "projects/proj-1/serviceAccounts/svc-a@proj-1.iam.gserviceaccount.com"] |}
     = resource.OfServiceAccount cr.
Proof.
  intros cr.
  destruct (Observe_result_invariants isStatusNotFound (externalOf (inr forbidden))
              {| object := resource.OfServiceAccount cr; calls := [] |}
              {| object := resource.OfServiceAccount cr;
                 calls := [IamGet "projects/proj-1/serviceAccounts/svc-a@proj-1.iam.gserviceaccount.com"] |}
              managed.noObservation
              (Some (errors.WithStack forbidden errGet)) eq_refl) as (H & _).
  apply H. discriminate.
Defined.

(** X3.  Two Observe calls in a row against a provider that gives the same
    answer leave the object as the first one left it and return the same
    result; the second only adds its own get request to the log. *)
Theorem Observe_twice (IsErrorNotFound : option error -> bool) (e : external)
    (st : Store) :
  let first := Observe IsErrorNotFound e st in
  let second := Observe IsErrorNotFound e (snd first) in
  forall r, fst first = Returned r ->
    fst second = Returned r
    /\ object (snd second) = object (snd first)
    /\ (calls (snd second) = calls (snd first)
        \/ exists cr, object st = resource.OfServiceAccount cr
                      /\ calls (snd second)
                         = calls (snd first) ++ [IamGet (ResourceName (rrn e) cr)]).
Proof.
  destruct st as [mg log]. unfold Observe. run.
  destruct mg as [cr|b]; simpl.
  - destruct (serviceAccounts e) as [svc|]; simpl; [|discriminate].
    destruct (iamv1.doGet svc _) as [fp|cause] eqn:Hget; simpl;
      destruct (IsErrorNotFound _) eqn:HI; simpl;
      intros r H; injection H as <-;
      rewrite ?ResourceName_populate, ?Hget; simpl; rewrite HI; simpl;
      (repeat split; right; now exists cr).
  - intros r H; injection H as <-. repeat split. now left.
Qed.

Lemma Observe_twice_witness :
  let cr := serviceAccountOf "sa-a" "svc-a" (Some "new") None in
  let e := externalOf (inl atProvider) in
  let first := Observe isStatusNotFound e
                 {| object := resource.OfServiceAccount cr; calls := [] |} in
  fst (Observe isStatusNotFound e (snd first))
  = Returned ({| managed.ResourceExists := true;
                 managed.ResourceUpToDate := false;
                 managed.eoConnectionDetails := Some ∅ |}, None)
  /\ object (snd (Observe isStatusNotFound e (snd first))) = object (snd first).
Proof.
  intros cr e first.
  destruct (Observe_twice isStatusNotFound e
              {| object := resource.OfServiceAccount cr; calls := [] |}
              ({| managed.ResourceExists := true;
                  managed.ResourceUpToDate := false;
                  managed.eoConnectionDetails := Some ∅ |}, None) eq_refl)
    as (H1 & H2 & _).
  split; [exact H1 | exact H2].
Defined.

(** ** Create, Update and Delete *)

(** X4.  When the provider's create call succeeds, Create returns a nil
    error, writes the five provider fields of the answer into the status
    and keeps metadata and spec; the one request it has issued is the
    create under the scope address. *)
Theorem Create_succeeds (e : external) (svc : iamv1.ProjectsServiceAccountsService)
    (cr : v1alpha1.ServiceAccount) (log : list Call)
    (fromProvider : iamv1.ServiceAccount) :
  serviceAccounts e = Some svc ->
  iamv1.doCreate svc (ProjectName (rrn e)) (createRequestOf cr) = inl fromProvider ->
  Create e {| object := resource.OfServiceAccount cr; calls := log |}
  = (Returned (managed.noCreation, None),
     {| object :=
          resource.OfServiceAccount
            {| v1alpha1.ObjectMeta := v1alpha1.ObjectMeta cr;
               v1alpha1.Spec := v1alpha1.Spec cr;
               v1alpha1.Status := statusFrom fromProvider |};
        calls := log ++ [IamCreate (ProjectName (rrn e)) (createRequestOf cr)] |}).
Proof.
  intros Hsvc Hc. unfold Create. run. rewrite Hsvc; simpl.
  change {| iamv1.AccountId := meta.GetExternalName cr;
            iamv1.csarServiceAccount := _ |} with (createRequestOf cr).
  now rewrite Hc.
Qed.

Lemma Create_succeeds_witness :
  let cr := serviceAccountOf "sa-a" "svc-a" (Some "old") None in
  Create (externalOf (inl atProvider))
    {| object := resource.OfServiceAccount cr; calls := [] |}
  = (Returned (managed.noCreation, None),
     {| object :=
          resource.OfServiceAccount
            {| v1alpha1.ObjectMeta := v1alpha1.ObjectMeta cr;
               v1alpha1.Spec := v1alpha1.Spec cr;
               v1alpha1.Status := statusFrom atProvider |};
        calls := [IamCreate "projects/proj-1" (createRequestOf cr)] |}).
Proof.
  intros cr.
  exact (Create_succeeds (externalOf (inl atProvider)) (serviceAnswering (inl atProvider))
           cr [] atProvider eq_refl eq_refl).
Defined.

(** X5.  When the provider's create call fails, with whatever error
    (not-found and conflict included: Create consults no classifier),
    Create returns that error wrapped with [errCreate] and leaves the
    object, status included, as it was. *)
Theorem Create_fails (e : external) (svc : iamv1.ProjectsServiceAccountsService)
    (cr : v1alpha1.ServiceAccount) (log : list Call) (err : error) :
  serviceAccounts e = Some svc ->
  iamv1.doCreate svc (ProjectName (rrn e)) (createRequestOf cr) = inr err ->
  Create e {| object := resource.OfServiceAccount cr; calls := log |}
  = (Returned (managed.noCreation,
               Some (errors.WithStack err
                       "cannot create GCP ServiceAccount object via IAM API")),
     {| object := resource.OfServiceAccount cr;
        calls := log ++ [IamCreate (ProjectName (rrn e)) (createRequestOf cr)] |}).
Proof.
  intros Hsvc Hc. unfold Create. run. rewrite Hsvc; simpl.
  change {| iamv1.AccountId := meta.GetExternalName cr;
            iamv1.csarServiceAccount := _ |} with (createRequestOf cr).
  now rewrite Hc.
Qed.

Lemma Create_fails_witness :
  let cr := serviceAccountOf "sa-a" "svc-a" (Some "old") None in
  Create (externalOf (inr notFound))
    {| object := resource.OfServiceAccount cr; calls := [] |}
  = (Returned (managed.noCreation,
               Some (errors.WithStack notFound
                       "cannot create GCP ServiceAccount object via IAM API")),
     {| object := resource.OfServiceAccount cr;
        calls := [IamCreate "projects/proj-1" (createRequestOf cr)] |}).
Proof.
  intros cr.
  exact (Create_fails (externalOf (inr notFound)) (serviceAnswering (inr notFound))
           cr [] notFound eq_refl eq_refl).
Defined.

(** X6.  Create's request is decided by the external-name annotation, the
    desired parameters and the scope alone: two ServiceAccounts that agree
    on these issue the same request, whatever their metadata names and
    statuses are. *)
Theorem Create_request_ignores_name (e : external)
    (svc : iamv1.ProjectsServiceAccountsService)
    (cr cr' : v1alpha1.ServiceAccount) (log : list Call) :
  serviceAccounts e = Some svc ->
  meta.GetExternalName cr = meta.GetExternalName cr' ->
  v1alpha1.ForProvider (v1alpha1.Spec cr) = v1alpha1.ForProvider (v1alpha1.Spec cr') ->
  calls (snd (Create e {| object := resource.OfServiceAccount cr; calls := log |}))
  = calls (snd (Create e {| object := resource.OfServiceAccount cr'; calls := log |})).
Proof.
  intros Hsvc Hn Hp. unfold Create. run. rewrite Hsvc; simpl.
  rewrite Hn, Hp.
  now destruct (iamv1.doCreate svc _ _).
Qed.

Lemma Create_request_ignores_name_witness :
  calls (snd (Create (externalOf (inl atProvider))
                {| object := resource.OfServiceAccount
                               (serviceAccountOf "first-name" "svc-a" (Some "d") None);
                   calls := [] |}))
  = calls (snd (Create (externalOf (inl atProvider))
                  {| object := resource.OfServiceAccount
                                 (populateCRFromProvider
                                    (serviceAccountOf "second-name" "svc-a" (Some "d") None)
                                    atProvider);
                     calls := [] |})).
Proof.
  apply (Create_request_ignores_name (externalOf (inl atProvider))
           (serviceAnswering (inl atProvider))); reflexivity.
Defined.

(** X7.  Update returns a nil error when the provider's patch call
    succeeds and the patch error wrapped with [errUpdate] when it fails
    (a not-found answer is an error here: Update consults no classifier).
    The request is the patch of the resource address whose body carries
    the desired display name and description, the empty string for an
    unset one, and zero values elsewhere. *)
Theorem Update_result (e : external) (svc : iamv1.ProjectsServiceAccountsService)
    (cr : v1alpha1.ServiceAccount) (log : list Call) :
  serviceAccounts e = Some svc ->
  let st := {| object := resource.OfServiceAccount cr; calls := log |} in
  let st' := {| object := resource.OfServiceAccount cr;
                calls := log ++ [IamPatch (ResourceName (rrn e) cr) (patchRequestOf cr)] |} in
  (forall fromProvider,
     iamv1.doPatch svc (ResourceName (rrn e) cr) (patchRequestOf cr) = inl fromProvider ->
     Update e st = (Returned (managed.noUpdate, None), st'))
  /\ (forall err,
        iamv1.doPatch svc (ResourceName (rrn e) cr) (patchRequestOf cr) = inr err ->
        Update e st
        = (Returned (managed.noUpdate,
                     Some (errors.WithStack err
                             "cannot update GCP ServiceAccount object via IAM API")),
           st')).
Proof.
  intros Hsvc st st'; subst st st'. unfold Update. run. rewrite Hsvc; simpl.
  change {| iamv1.psarServiceAccount := _; iamv1.UpdateMask := _ |}
    with (patchRequestOf cr).
  split; intros x Hx; now rewrite Hx.
Qed.

Lemma Update_result_witness :
  let cr := serviceAccountOf "sa-a" "svc-a" (Some "new") None in
  let st := {| object := resource.OfServiceAccount cr; calls := [] |} in
  let st' := {| object := resource.OfServiceAccount cr;
                calls := [IamPatch "projects/proj-1/serviceAccounts/svc-a@proj-1.iam.gserviceaccount.com"
                            (patchRequestOf cr)] |} in
  Update (externalOf (inl atProvider)) st = (Returned (managed.noUpdate, None), st')
  /\ Update (externalOf (inr notFound)) st
     = (Returned (managed.noUpdate,
                  Some (errors.WithStack notFound
                          "cannot update GCP ServiceAccount object via IAM API")),
        st').
Proof.
  intros cr st st'. split.
  - destruct (Update_result (externalOf (inl atProvider)) (serviceAnswering (inl atProvider))
                cr [] eq_refl) as [H _].
    exact (H atProvider eq_refl).
  - destruct (Update_result (externalOf (inr notFound)) (serviceAnswering (inr notFound))
                cr [] eq_refl) as [_ H].
    exact (H notFound eq_refl).
Defined.

(** X8.  Delete returns a nil error whenever the provider's delete call
    succeeds, whatever the classifier makes of a nil error, and no path of
    Delete writes the managed object. *)
Theorem Delete_succeeds (IsErrorNotFound : option error -> bool) (e : external)
    (st : Store) :
  object (snd (Delete IsErrorNotFound e st)) = object st
  /\ (forall cr svc,
        object st = resource.OfServiceAccount cr ->
        serviceAccounts e = Some svc ->
        iamv1.doDelete svc (ResourceName (rrn e) cr) = inl tt ->
        Delete IsErrorNotFound e st
        = (Returned None,
           {| object := object st;
              calls := calls st ++ [IamDelete (ResourceName (rrn e) cr)] |})).
Proof.
  destruct st as [mg log]. split.
  - unfold Delete. run. destruct mg as [cr|b]; simpl; [|reflexivity].
    destruct (serviceAccounts e) as [svc|]; simpl; [|reflexivity].
    now destruct (IsErrorNotFound _).
  - intros cr svc Hmg Hsvc Hd; simpl in Hmg; subst mg.
    unfold Delete. run. rewrite Hsvc; simpl. rewrite Hd; simpl.
    now destruct (IsErrorNotFound None).
Qed.

Lemma Delete_succeeds_witness :
  let cr := serviceAccountOf "sa-a" "svc-a" None None in
  Delete (fun _ => true) (externalOf (inl atProvider))
    {| object := resource.OfServiceAccount cr; calls := [] |}
  = (Returned None,
     {| object := resource.OfServiceAccount cr;
        calls := [IamDelete "projects/proj-1/serviceAccounts/svc-a@proj-1.iam.gserviceaccount.com"] |}).
Proof.
  intros cr.
  destruct (Delete_succeeds (fun _ => true) (externalOf (inl atProvider))
              {| object := resource.OfServiceAccount cr; calls := [] |}) as [_ H].
  exact (H cr (serviceAnswering (inl atProvider)) eq_refl eq_refl eq_refl).
Defined.

(** ** What the operations never do *)

(** X9.  No operation, Connect included, changes the kind, the metadata or
    the spec of the managed object, whatever the collaborators answer and
    whether it returns or panics: Observe and Create write the status
    only. *)
Theorem operations_keep_desired_state (IsErrorNotFound : option error -> bool)
    (c : connecter) (e : external) (st : Store) :
  desiredOf (object (snd (Connect c st))) = desiredOf (object st)
  /\ desiredOf (object (snd (Observe IsErrorNotFound e st))) = desiredOf (object st)
  /\ desiredOf (object (snd (Create e st))) = desiredOf (object st)
  /\ desiredOf (object (snd (Update e st))) = desiredOf (object st)
  /\ desiredOf (object (snd (Delete IsErrorNotFound e st))) = desiredOf (object st).
Proof.
  destruct st as [mg log]. destruct mg as [cr|b]; [|repeat split; reflexivity].
  split; [|split; [|split; [|split]]].
  - unfold Connect. run.
    destruct (v1alpha1.ProviderReference _) as [ref|]; simpl; [|reflexivity].
    destruct (GetProvider _ _) as [p|?]; simpl; [|reflexivity].
    destruct (gcpv1alpha3.GetCredentialsSecretReference p) as [sel|]; simpl; [|reflexivity].
    destruct (GetSecret _ _) as [s|?]; simpl; [|reflexivity].
    now destruct (newSAS c _).
  - unfold Observe. run.
    destruct (serviceAccounts e) as [svc|]; simpl; [|reflexivity].
    destruct (IsErrorNotFound _); simpl; [reflexivity|].
    now destruct (iamv1.doGet svc _).
  - unfold Create. run.
    destruct (serviceAccounts e) as [svc|]; simpl; [|reflexivity].
    now destruct (iamv1.doCreate svc _ _).
  - unfold Update. run.
    now destruct (serviceAccounts e) as [svc|].
  - unfold Delete. run.
    destruct (serviceAccounts e) as [svc|]; simpl; [|reflexivity].
    now destruct (IsErrorNotFound _).
Qed.

(** X10.  An operation of the external client issues at most one request
    per invocation, of its own kind and only on a ServiceAccount: Observe a
    get, Update a patch and Delete a delete, all three at the resource
    address, Create a create under the scope address.  Requests already in
    the log stay as they are. *)
Theorem operations_issue_one_request (IsErrorNotFound : option error -> bool)
    (e : external) (st : Store) :
  let one (st' : Store) (request : v1alpha1.ServiceAccount -> Call) :=
    calls st' = calls st
    \/ exists cr, object st = resource.OfServiceAccount cr
                  /\ calls st' = calls st ++ [request cr] in
  one (snd (Observe IsErrorNotFound e st)) (fun cr => IamGet (ResourceName (rrn e) cr))
  /\ one (snd (Create e st))
       (fun cr => IamCreate (ProjectName (rrn e)) (createRequestOf cr))
  /\ one (snd (Update e st))
       (fun cr => IamPatch (ResourceName (rrn e) cr) (patchRequestOf cr))
  /\ one (snd (Delete IsErrorNotFound e st))
       (fun cr => IamDelete (ResourceName (rrn e) cr)).
Proof.
  intros one; subst one. destruct st as [mg log].
  destruct mg as [cr|b]; [|repeat split; now left].
  split; [|split; [|split]].
  - unfold Observe. run.
    destruct (serviceAccounts e) as [svc|]; simpl; [|now left].
    right. exists cr. split; [reflexivity|].
    destruct (IsErrorNotFound _); simpl; [reflexivity|].
    now destruct (iamv1.doGet svc _).
  - unfold Create. run.
    destruct (serviceAccounts e) as [svc|]; simpl; [|now left].
    right. exists cr. split; [reflexivity|].
    now destruct (iamv1.doCreate svc _ _).
  - unfold Update. run.
    destruct (serviceAccounts e) as [svc|]; simpl; [|now left].
    right. now exists cr.
  - unfold Delete. run.
    destruct (serviceAccounts e) as [svc|]; simpl; [|now left].
    right. exists cr. split; [reflexivity|].
    now destruct (IsErrorNotFound _).
Qed.

(** ** Connect *)

(** X11.  A nil error from Connect means that every step went through, in
    this order: the object is a ServiceAccount, its Provider was fetched
    under the namespace and name of the provider reference, the Provider
    carries a credential reference, the Secret was fetched under the
    namespace and name of that reference, and the constructor accepted the
    bytes stored under the referenced key.  The client returned holds the
    constructor's service and a namer for the Provider's project, and the
    object is untouched. *)
Theorem Connect_success (c : connecter) (st st' : Store) (cl : option external) :
  Connect c st = (Returned (cl, None), st') ->
  exists cr ref p sel s saAPI,
    object st = resource.OfServiceAccount cr
    /\ v1alpha1.ProviderReference (v1alpha1.Spec cr) = Some ref
    /\ GetProvider (client c)
         {| types.Namespace := corev1.Namespace ref; types.Name := corev1.Name ref |}
       = inl p
    /\ gcpv1alpha3.CredentialsSecretRef (gcpv1alpha3.Spec p) = Some sel
    /\ GetSecret (client c) (secretKeyOf sel) = inl s
    /\ newSAS c (corev1.Data s !! runtimev1alpha1.Key sel) = (saAPI, None)
    /\ cl = Some {| serviceAccounts := saAPI;
                    rrn := {| projectName := gcpv1alpha3.ProjectID (gcpv1alpha3.Spec p) |} |}
    /\ st' = {| object := object st;
                calls := calls st ++
                  [KubeGetProvider {| types.Namespace := corev1.Namespace ref;
                                      types.Name := corev1.Name ref |};
                   KubeGetSecret (secretKeyOf sel);
                   NewSAS (corev1.Data s !! runtimev1alpha1.Key sel)] |}.
Proof.
  destruct st as [mg log]. destruct mg as [cr|b]; [|discriminate].
  destruct (v1alpha1.ProviderReference (v1alpha1.Spec cr)) as [ref|] eqn:Href.
  - rewrite (Connect_steps c cr ref log Href). simpl.
    unfold meta.NamespacedNameOf.
    destruct (GetProvider _ _) as [p|?] eqn:Hp; [|discriminate].
    unfold gcpv1alpha3.GetCredentialsSecretReference.
    destruct (gcpv1alpha3.CredentialsSecretRef _) as [sel|] eqn:Hsel; [|discriminate].
    destruct (GetSecret _ _) as [s|?] eqn:Hs; [|discriminate].
    destruct (newSAS c _) as [saAPI [cause|]] eqn:Hn; simpl; [discriminate|].
    intros H; injection H as <- <-.
    exists cr, ref, p, sel, s, saAPI. now repeat split.
  - unfold Connect. run. rewrite Href. discriminate.
Qed.

Lemma Connect_success_witness :
  let c := connecterOf (inl (providerOf true)) (inl (secretWith "credentials.json"))
             (inl (serviceAnswering (inl atProvider))) in
  let mg := resource.OfServiceAccount (serviceAccountOf "sa-a" "svc-a" None None) in
  exists p sel s,
    GetProvider (client c) {| types.Namespace := ""; types.Name := "gcp-provider" |} = inl p
    /\ gcpv1alpha3.CredentialsSecretRef (gcpv1alpha3.Spec p) = Some sel
    /\ GetSecret (client c) (secretKeyOf sel) = inl s
    /\ newSAS c (corev1.Data s !! runtimev1alpha1.Key sel)
       = (Some (serviceAnswering (inl atProvider)), None).
Proof.
  intros c mg.
  destruct (Connect_success c {| object := mg; calls := [] |}
              {| object := mg;
                 calls := [KubeGetProvider {| types.Namespace := "";
                                              types.Name := "gcp-provider" |};
                           KubeGetSecret {| types.Namespace := "crossplane-system";
                                            types.Name := "gcp-creds" |};
                           NewSAS (Some [Byte.x7b; Byte.x7d])] |}
              (Some {| serviceAccounts := Some (serviceAnswering (inl atProvider));
                       rrn := {| projectName := "proj-1" |} |}))
    as (cr & ref & p & sel & s & saAPI & Hmg & Href & Hp & Hsel & Hs & Hn & Hcl & _).
  - vm_compute. reflexivity.
  - injection Hmg as <-. injection Href as <-. injection Hcl as <- _.
    exists p, sel, s. repeat split; assumption.
Defined.

(** X12.  With the package's own constructor [newServiceAccountsAPI],
    Connect returns a nil error exactly when it returns a client that
    holds a service: a client that comes with an error holds none. *)
Theorem Connect_service_iff_no_error (c : connecter)
    (NewService : option (list Byte.byte)
                  -> iamv1.ProjectsServiceAccountsService + error)
    (st st' : Store) (cl : option external) (err : option error) :
  newSAS c = newServiceAccountsAPI NewService ->
  Connect c st = (Returned (cl, err), st') ->
  err = None <-> exists x svc, cl = Some x /\ serviceAccounts x = Some svc.
Proof.
  intros Hnew. destruct st as [mg log]. destruct mg as [cr|b].
  - destruct (v1alpha1.ProviderReference (v1alpha1.Spec cr)) as [ref|] eqn:Href.
    + rewrite (Connect_steps c cr ref log Href). simpl.
      destruct (GetProvider _ _) as [p|?].
      * destruct (gcpv1alpha3.GetCredentialsSecretReference p) as [sel|].
        -- destruct (GetSecret _ _) as [s|?].
           ++ rewrite Hnew. unfold newServiceAccountsAPI.
              destruct (NewService _) as [svc|cause]; simpl;
                intros H; injection H as <- <- <-.
              ** split; [intros _; now eexists _, svc | reflexivity].
              ** split; [discriminate | now intros (x & svc & [= <-] & [=])].
           ++ intros H; injection H as <- <- <-.
              split; [discriminate | now intros (x & svc & [=] & _)].
        -- intros H; injection H as <- <- <-.
           split; [discriminate | now intros (x & svc & [=] & _)].
      * intros H; injection H as <- <- <-.
        split; [discriminate | now intros (x & svc & [=] & _)].
    + unfold Connect. run. rewrite Href. discriminate.
  - intros H; injection H as <- <- <-.
    split; [discriminate | now intros (x & svc & [=] & _)].
Qed.

Lemma Connect_service_iff_no_error_witness :
  let c := connecterOf (inl (providerOf true)) (inl (secretWith "credentials.json"))
             (inl (serviceAnswering (inl atProvider))) in
  @None error = None
  <-> exists x svc,
        Some {| serviceAccounts := Some (serviceAnswering (inl atProvider));
                rrn := NewRelativeResourceNamer "proj-1" |} = Some x
        /\ serviceAccounts x = Some svc.
Proof.
  intros c.
  apply (Connect_service_iff_no_error c (fun _ => inl (serviceAnswering (inl atProvider)))
           {| object := resource.OfServiceAccount (serviceAccountOf "sa-a" "svc-a" None None);
              calls := [] |}
           {| object := resource.OfServiceAccount (serviceAccountOf "sa-a" "svc-a" None None);
              calls := [KubeGetProvider {| types.Namespace := "";
                                           types.Name := "gcp-provider" |};
                        KubeGetSecret {| types.Namespace := "crossplane-system";
                                         types.Name := "gcp-creds" |};
                        NewSAS (Some [Byte.x7b; Byte.x7d])] |}).
  - reflexivity.
  - vm_compute. reflexivity.
Defined.

(** ** Drift detection and the projections *)

(** X13.  [isUpToDate] reads the observed resource through its display
    name and description only: two observed resources that agree on these
    two fields get the same verdict, however they differ in e-mail, name,
    ids or the disabled flag. *)
Theorem isUpToDate_reads_two_fields (i : v1alpha1.ServiceAccountParameters)
    (o o' : iamv1.ServiceAccount) :
  iamv1.DisplayName o = iamv1.DisplayName o' ->
  iamv1.Description o = iamv1.Description o' ->
  isUpToDate i o = isUpToDate i o'.
Proof.
  intros Hn Hd. unfold isUpToDate. now rewrite Hn, Hd.
Qed.

Lemma isUpToDate_reads_two_fields_witness :
  isUpToDate {| v1alpha1.DisplayName := Some "old"; v1alpha1.Description := Some "" |}
    atProvider
  = isUpToDate {| v1alpha1.DisplayName := Some "old"; v1alpha1.Description := Some "" |}
      {| iamv1.Description := "";
         iamv1.Disabled := true;
         iamv1.DisplayName := "old";
         iamv1.Email := "other@proj-2.iam.gserviceaccount.com";
         iamv1.Name := "";
         iamv1.Oauth2ClientId := "1";
         iamv1.UniqueId := "2" |}.
Proof.
  apply isUpToDate_reads_two_fields; reflexivity.
Defined.

(** X14.  [isUpToDate] is true exactly when every desired field that is
    set equals the observed one; with no field set it is true of every
    observed resource. *)
Theorem isUpToDate_iff (i : v1alpha1.ServiceAccountParameters)
    (observed : iamv1.ServiceAccount) :
  (isUpToDate i observed = true
   <-> (forall d, v1alpha1.DisplayName i = Some d -> d = iamv1.DisplayName observed)
       /\ (forall d, v1alpha1.Description i = Some d -> d = iamv1.Description observed))
  /\ isUpToDate {| v1alpha1.DisplayName := None; v1alpha1.Description := None |}
       observed = true.
Proof.
  split; [|reflexivity].
  destruct i as [dn ds]; unfold isUpToDate; simpl. split.
  - intros H. split; intros d ->.
    + apply strNeq_false_iff. now destruct (strNeq d _).
    + apply strNeq_false_iff.
      destruct dn as [d0|]; [destruct (strNeq d0 _); [discriminate|]|];
        now destruct (strNeq d _).
  - intros [Hn Hs].
    destruct dn as [d|];
      [rewrite (proj2 (strNeq_false_iff _ _) (Hn d eq_refl))|];
      (destruct ds as [d'|];
        [now rewrite (proj2 (strNeq_false_iff _ _) (Hs d' eq_refl)) | reflexivity]).
Qed.

Lemma isUpToDate_iff_witness :
  isUpToDate {| v1alpha1.DisplayName := Some "old"; v1alpha1.Description := None |}
    atProvider = true.
Proof.
  destruct (isUpToDate_iff
              {| v1alpha1.DisplayName := Some "old"; v1alpha1.Description := None |}
              atProvider) as [[_ H] _].
  apply H. split; intros d E; [now injection E as <- | discriminate E].
Defined.

(** The status projection keeps nothing of the previous status: the
    status after [populateCRFromProvider] is the provider's answer, so
    projecting twice is projecting the last answer, and metadata and spec
    go through unchanged. *)
Lemma populateCRFromProvider_last_wins (cr : v1alpha1.ServiceAccount)
    (a b : iamv1.ServiceAccount) :
  populateCRFromProvider (populateCRFromProvider cr a) b = populateCRFromProvider cr b
  /\ v1alpha1.Status (populateCRFromProvider cr a) = statusFrom a
  /\ v1alpha1.Spec (populateCRFromProvider cr a) = v1alpha1.Spec cr
  /\ v1alpha1.ObjectMeta (populateCRFromProvider cr a) = v1alpha1.ObjectMeta cr.
Proof. repeat split; reflexivity. Qed.

(** X15.  What Update sends is what the drift detector wants to see: once
    a provider that honours the update mask has applied Update's patch to
    whatever resource it held, [isUpToDate] holds of the result for the
    same desired parameters. *)
Theorem Update_patch_converges (e : external)
    (svc : iamv1.ProjectsServiceAccountsService) (cr : v1alpha1.ServiceAccount)
    (log : list Call) (held : iamv1.ServiceAccount) :
  serviceAccounts e = Some svc ->
  exists name psar,
    calls (snd (Update e {| object := resource.OfServiceAccount cr; calls := log |}))
    = log ++ [IamPatch name psar]
    /\ isUpToDate (v1alpha1.ForProvider (v1alpha1.Spec cr)) (applyPatch psar held) = true.
Proof.
  intros Hsvc. eexists _, _. split.
  - unfold Update. run. now rewrite Hsvc.
  - unfold applyPatch. simpl.
    change (maskNames "description,displayName" "description") with true.
    change (maskNames "description,displayName" "displayName") with true.
    simpl. unfold isUpToDate, strNeq; simpl.
    destruct (v1alpha1.DisplayName _) as [d|], (v1alpha1.Description _) as [d'|];
      simpl; rewrite ?String.eqb_refl; reflexivity.
Qed.

Lemma Update_patch_converges_witness :
  let cr := serviceAccountOf "sa-a" "svc-a" (Some "new") None in
  exists name psar,
    calls (snd (Update (externalOf (inl atProvider))
                  {| object := resource.OfServiceAccount cr; calls := [] |}))
    = [IamPatch name psar]
    /\ isUpToDate (v1alpha1.ForProvider (v1alpha1.Spec cr)) (applyPatch psar atProvider) = true.
Proof.
  intros cr.
  exact (Update_patch_converges (externalOf (inl atProvider))
           (serviceAnswering (inl atProvider)) cr [] atProvider eq_refl).
Defined.

(** X16.  Update's request does not depend on the status: Update after a
    status projection (after an Observe or a Create, that is) issues the
    request it would have issued before. *)
Theorem Update_request_ignores_status (e : external) (cr : v1alpha1.ServiceAccount)
    (fromProvider : iamv1.ServiceAccount) (log : list Call) :
  calls (snd (Update e {| object := resource.OfServiceAccount
                                      (populateCRFromProvider cr fromProvider);
                          calls := log |}))
  = calls (snd (Update e {| object := resource.OfServiceAccount cr; calls := log |})).
Proof.
  unfold Update. run. rewrite ResourceName_populate.
  now destruct (serviceAccounts e).
Qed.

(** ** The resource namer *)

(** X17.  The resource address extends the scope address: it is the scope
    address followed by "/serviceAccounts/", the external name, "@", the
    scope and the domain suffix.  The scope address determines the scope. *)
Theorem ResourceName_extends_ProjectName (r r' : RelativeResourceNamer)
    (cr : v1alpha1.ServiceAccount) :
  ResourceName r cr
  = ProjectName r +:+ "/serviceAccounts/" +:+ meta.GetExternalName cr +:+ "@"
      +:+ projectName r +:+ ".iam.gserviceaccount.com"
  /\ (ProjectName r = ProjectName r' -> r = r').
Proof.
  destruct r as [s], r' as [s']. split.
  - apply chars_inj.
    fold (NewRelativeResourceNamer s).
    rewrite ResourceName_chars, !chars_app, ProjectName_eq, chars_app.
    now rewrite <- !app_assoc.
  - fold (NewRelativeResourceNamer s) (NewRelativeResourceNamer s').
    rewrite !ProjectName_eq. intros H.
    apply (f_equal chars) in H. rewrite !chars_app in H.
    apply app_inv_head in H. now rewrite (chars_inj _ _ H).
Qed.

Lemma ResourceName_extends_ProjectName_witness :
  NewRelativeResourceNamer "proj-1" = NewRelativeResourceNamer "proj-1".
Proof.
  destruct (ResourceName_extends_ProjectName (NewRelativeResourceNamer "proj-1")
              (NewRelativeResourceNamer "proj-1")
              (serviceAccountOf "sa-a" "svc-a" None None)) as [_ H].
  apply H. reflexivity.
Defined.

(** X18.  A ServiceAccount without the external-name annotation has the
    empty external name: its resource address is
    "projects/" + scope + "/serviceAccounts/@" + scope + ".iam.gserviceaccount.com",
    one and the same for every such object of the scope, and the AccountId
    of its create request is empty.  Nothing fails on the way. *)
Theorem ResourceName_without_annotation (s : string) (cr : v1alpha1.ServiceAccount) :
  metav1.Annotations (v1alpha1.ObjectMeta cr) !! "crossplane.io/external-name" = None ->
  meta.GetExternalName cr = ""
  /\ ResourceName (NewRelativeResourceNamer s) cr
     = "projects/" +:+ s +:+ "/serviceAccounts/@" +:+ s +:+ ".iam.gserviceaccount.com"
  /\ iamv1.AccountId (createRequestOf cr) = "".
Proof.
  intros H.
  assert (Hn : meta.GetExternalName cr = "").
  { unfold meta.GetExternalName, meta.AnnotationKeyExternalName. now rewrite H. }
  split; [exact Hn|]. split; [|exact Hn].
  rewrite ResourceName_eq, Hn. reflexivity.
Qed.

Lemma ResourceName_without_annotation_witness :
  ResourceName (NewRelativeResourceNamer "proj-1") (unannotated "sa-a")
  = "projects/proj-1/serviceAccounts/@proj-1.iam.gserviceaccount.com"
  /\ ResourceName (NewRelativeResourceNamer "proj-1") (unannotated "sa-b")
     = "projects/proj-1/serviceAccounts/@proj-1.iam.gserviceaccount.com".
Proof.
  split.
  - destruct (ResourceName_without_annotation "proj-1" (unannotated "sa-a")) as (_ & H & _);
      [reflexivity | exact H].
  - destruct (ResourceName_without_annotation "proj-1" (unannotated "sa-b")) as (_ & H & _);
      [reflexivity | exact H].
Defined.

(** ** The generated accessors of the Bucket *)

(** X19.  Each setter of the Bucket is read back by its getter, setting
    what the getter returns changes nothing, and of two writes to one field
    the second stands. *)
Theorem bucket_set_get (mg : gcpv1alpha3.Bucket)
    (r r' : option corev1.ObjectReference) (p p' : string)
    (w w' : option runtimev1alpha1.SecretReference) :
  (bucket.GetClaimReference (bucket.SetClaimReference mg r) = r
   /\ bucket.GetClassReference (bucket.SetClassReference mg r) = r
   /\ gcpv1alpha3.GetProviderReference (gcpv1alpha3.SetProviderReference mg r) = r
   /\ gcpv1alpha3.GetReclaimPolicy (bucket.SetReclaimPolicy mg p) = p
   /\ bucket.GetWriteConnectionSecretToReference
        (bucket.SetWriteConnectionSecretToReference mg w) = w)
  /\ (bucket.SetClaimReference mg (bucket.GetClaimReference mg) = mg
      /\ bucket.SetClassReference mg (bucket.GetClassReference mg) = mg
      /\ gcpv1alpha3.SetProviderReference mg (gcpv1alpha3.GetProviderReference mg) = mg
      /\ bucket.SetReclaimPolicy mg (gcpv1alpha3.GetReclaimPolicy mg) = mg
      /\ bucket.SetWriteConnectionSecretToReference mg
           (bucket.GetWriteConnectionSecretToReference mg) = mg)
  /\ (bucket.SetClaimReference (bucket.SetClaimReference mg r) r'
      = bucket.SetClaimReference mg r'
      /\ bucket.SetClassReference (bucket.SetClassReference mg r) r'
         = bucket.SetClassReference mg r'
      /\ gcpv1alpha3.SetProviderReference (gcpv1alpha3.SetProviderReference mg r) r'
         = gcpv1alpha3.SetProviderReference mg r'
      /\ bucket.SetReclaimPolicy (bucket.SetReclaimPolicy mg p) p'
         = bucket.SetReclaimPolicy mg p'
      /\ bucket.SetWriteConnectionSecretToReference
           (bucket.SetWriteConnectionSecretToReference mg w) w'
         = bucket.SetWriteConnectionSecretToReference mg w').
Proof.
  destruct mg as [[a b c d f]]. repeat split; reflexivity.
Qed.

(** X20.  A setter of the Bucket writes its own field only: the four other
    getters return what they returned before. *)
Theorem bucket_set_frame (mg : gcpv1alpha3.Bucket)
    (r : option corev1.ObjectReference) (p : string)
    (w : option runtimev1alpha1.SecretReference) :
  (let mg' := bucket.SetClaimReference mg r in
   (bucket.GetClassReference mg', gcpv1alpha3.GetProviderReference mg',
    gcpv1alpha3.GetReclaimPolicy mg', bucket.GetWriteConnectionSecretToReference mg')
   = (bucket.GetClassReference mg, gcpv1alpha3.GetProviderReference mg,
      gcpv1alpha3.GetReclaimPolicy mg, bucket.GetWriteConnectionSecretToReference mg))
  /\ (let mg' := bucket.SetClassReference mg r in
      (bucket.GetClaimReference mg', gcpv1alpha3.GetProviderReference mg',
       gcpv1alpha3.GetReclaimPolicy mg', bucket.GetWriteConnectionSecretToReference mg')
      = (bucket.GetClaimReference mg, gcpv1alpha3.GetProviderReference mg,
         gcpv1alpha3.GetReclaimPolicy mg, bucket.GetWriteConnectionSecretToReference mg))
  /\ (let mg' := gcpv1alpha3.SetProviderReference mg r in
      (bucket.GetClaimReference mg', bucket.GetClassReference mg',
       gcpv1alpha3.GetReclaimPolicy mg', bucket.GetWriteConnectionSecretToReference mg')
      = (bucket.GetClaimReference mg, bucket.GetClassReference mg,
         gcpv1alpha3.GetReclaimPolicy mg, bucket.GetWriteConnectionSecretToReference mg))
  /\ (let mg' := bucket.SetReclaimPolicy mg p in
      (bucket.GetClaimReference mg', bucket.GetClassReference mg',
       gcpv1alpha3.GetProviderReference mg', bucket.GetWriteConnectionSecretToReference mg')
      = (bucket.GetClaimReference mg, bucket.GetClassReference mg,
         gcpv1alpha3.GetProviderReference mg, bucket.GetWriteConnectionSecretToReference mg))
  /\ (let mg' := bucket.SetWriteConnectionSecretToReference mg w in
      (bucket.GetClaimReference mg', bucket.GetClassReference mg',
       gcpv1alpha3.GetProviderReference mg', gcpv1alpha3.GetReclaimPolicy mg')
      = (bucket.GetClaimReference mg, bucket.GetClassReference mg,
         gcpv1alpha3.GetProviderReference mg, gcpv1alpha3.GetReclaimPolicy mg)).
Proof.
  destruct mg as [[a b c d f]]. repeat split; reflexivity.
Qed.
